(** * DeepSpeedTransformerInference: a shallow embedding

    Source: [deepspeed/model_implementations/transformers/ds_transformer.py].

    The class sequences one transformer block: workspace allocation, mask and
    cache resolution, attention, MLP, optional post layer norm, output
    packaging.  Everything numeric is delegated to collaborators (the
    inference kernel module, the attention and MLP sub-modules, torch,
    [deepspeed.comm]); they appear here as one record of functions,
    [Kernels], over an external state the file never inspects.

    Python objects that the code shares and mutates are kept in a store:
    configuration objects are reached through references, because
    [__init__] writes into the object it is handed and keeps the reference;
    the class attribute [layer_id] and the module global
    [inference_cuda_module] are fields of the store; a layer's only mutable
    attribute, [self.layer_past], is a cell indexed by the layer's identity.
    Exceptions leave the store as it was when they were raised. *)

From Stdlib Require Import ZArith Bool List PrimFloat Lia.
From stdpp Require Import base tactics option list functions numbers.

Set Default Proof Using "Type".

(** ** Tensors, as far as this file looks into them *)

Inductive Dtype := Float32 | Float16 | BFloat16 | Float64 | Int8.

#[global] Instance Dtype_eq_dec : EqDecision Dtype.
Proof. solve_decision. Defined.

Inductive Device := CPU | CUDA (index : Z).

(** Object references (identity of a Python object). *)
Definition loc := nat.

(** ** Exceptions and results *)

Inductive exn :=
| AttributeError
| IndexError
| RuntimeError
| ExternalError (code : nat).

Inductive result (A : Type) :=
| Ok (a : A)
| Raise (e : exn).
Arguments Ok {A} a.
Arguments Raise {A} e.

(** ** Configuration objects ([DeepSpeedInferenceConfig]), the attributes
    this file reads or writes. *)

Record Config := {
  layer_id : Z;
  hidden_size : Z;
  heads : Z;
  mp_size : Z;
  fp16 : bool;
  q_int8 : bool;
  pre_layer_norm : bool;
  epsilon : float;
  max_out_tokens : Z;
  bigscience_bloom : bool;
  return_tuple : bool }.

(** [config.layer_id = n] *)
Definition set_layer_id (c : Config) (n : Z) : Config :=
  {| layer_id := n;
     hidden_size := hidden_size c;
     heads := heads c;
     mp_size := mp_size c;
     fp16 := fp16 c;
     q_int8 := q_int8 c;
     pre_layer_norm := pre_layer_norm c;
     epsilon := epsilon c;
     max_out_tokens := max_out_tokens c;
     bigscience_bloom := bigscience_bloom c;
     return_tuple := return_tuple c |}.

(** The two workspace allocators and the two layer norms of the kernel
    module. *)
Inductive AllocKernel := allocate_workspace_fp32 | allocate_workspace_fp16.
Inductive NormKernel := layer_norm_fp16 | layer_norm_fp32.

(** Positional arguments of [allocate_workspace], in call order. *)
Record AllocArgs := {
  aw_hidden_size : Z;
  aw_batch : Z;
  aw_seq_len : Z;
  aw_num_layers : Z;
  aw_heads : Z;
  aw_mp_size : Z;
  aw_bigscience_bloom : bool;
  aw_rank : Z;
  aw_max_out_tokens : Z }.

(** Constructor arguments of the two sub-modules; the configuration is
    handed on by reference. *)
Record Attention := {
  at_config : loc;
  at_mp_group : option nat;
  at_quantize_scales : option nat;
  at_quantize_groups : Z;
  at_merge_count : Z;
  at_qkv_merging : bool }.

Record MLP := {
  ml_config : loc;
  ml_mp_group : option nat;
  ml_quantize_scales : option nat;
  ml_quantize_groups : Z;
  ml_merge_count : Z;
  ml_mlp_extra_grouping : bool }.

(** Arguments of [__init__]. *)
Record InitArgs := {
  config : loc;
  mp_group : option nat;
  quantize_scales : option nat;
  quantize_groups : Z;
  merge_count : Z;
  mlp_extra_grouping : bool;
  qkv_merging : bool }.

Section Layer.

(** [Data] is the storage of a tensor, [Ext] the state of the collaborators
    (device memory, the workspace, the process group). *)
Context {Data Ext : Type}.

Record Tensor := {
  dtype : Dtype;
  shape : list Z;
  device : Device;
  data : Data }.

(** The key/value pair [(key, value)]. *)
Definition KV : Type := Tensor * Tensor.

(** What [forward] may receive as [input]: a tensor, or a tuple. *)
Inductive PyInput :=
| InTensor (t : Tensor)
| InTuple (items : list Tensor).

(** What [forward] returns: a tensor, [None], or a tuple of such. *)
#[warnings="-register-all"]
Inductive PyVal :=
| VNone
| VTensor (t : Tensor)
| VTuple (items : list PyVal).

(** Keyword arguments of [forward], with the defaults of the signature in
    [no_args]. *)
Record FwdArgs := {
  input_mask : option Tensor;
  attention_mask : option Tensor;
  head_mask : option Tensor;
  layer_past : option KV;
  get_key_value : bool;
  get_present : bool;
  encoder_output : option Tensor;
  enc_dec_attn_mask : option Tensor;
  encoder_hidden_states : option Tensor;
  encoder_attention_mask : option Tensor;
  use_cache : bool;
  alibi : option Tensor;
  output_attentions : bool;
  layer_head_mask : option Tensor;
  past_key_value : option KV }.

Definition no_args : FwdArgs :=
  {| input_mask := None; attention_mask := None; head_mask := None;
     layer_past := None; get_key_value := false; get_present := false;
     encoder_output := None; enc_dec_attn_mask := None;
     encoder_hidden_states := None; encoder_attention_mask := None;
     use_cache := false; alibi := None; output_attentions := false;
     layer_head_mask := None; past_key_value := None |}.

(** Positional arguments of [self.attention(...)], in call order. *)
Record AttnArgs := {
  aa_input : Tensor;
  aa_input_mask : option Tensor;
  aa_head_mask : option Tensor;
  aa_layer_past : option KV;
  aa_get_present : bool;
  aa_encoder_hidden_states : option Tensor;
  aa_encoder_attention_mask : option Tensor;
  aa_output_attentions : bool;
  aa_norm_w : Tensor;
  aa_norm_b : Tensor;
  aa_alibi : option Tensor }.

(** The five values [self.attention] returns:
    [attention_output, key, value, context_outputtn_ctx, inp_norm]. *)
Definition AttnOut : Type := Tensor * Tensor * Tensor * Tensor * Tensor.

(** A layer object.  [self_id] is its identity; every attribute but
    [layer_past] is set once by [__init__], and [layer_past] lives in the
    store under [self_id]. *)
Record Layer := {
  self_id : loc;
  self_config : loc;
  attention : Attention;
  mlp : MLP;
  norm_w : Tensor;
  norm_b : Tensor;
  allocate_workspace : AllocKernel }.

(** Calls that leave this file, in the order they are made. *)
Inductive Event :=
| EvLoad
| EvLogDist (c : Config)
| EvAllocate (k : AllocKernel) (a : AllocArgs)
| EvAttention (m : Attention) (a : AttnArgs)
| EvMLP (m : MLP) (attention_output input inp_norm attn_ob : Tensor)
| EvLayerNorm (k : NormKernel) (x w b : Tensor) (eps : float).

(** The collaborators.  Each call may change the external state and may
    raise; none of them reaches into the store of this file. *)
Record Kernels := {
  builder_load : Ext → Ext * result unit;
  cuda_current_device : Ext → result Z;
  empty_data : Z → Dtype → Device → Ext → Data;
  cast_data : Dtype → Dtype → Data → Data;
  dist_is_initialized : Ext → bool;
  dist_get_rank : Ext → Z;
  run_allocate_workspace : AllocKernel → AllocArgs → Ext → Ext * result unit;
  run_layer_norm :
    NormKernel → Tensor → Tensor → Tensor → float → Ext → Ext * result Tensor;
  run_attention : Attention → AttnArgs → Ext → Ext * result AttnOut;
  attn_ob : Attention → Ext → Tensor;
  run_mlp :
    MLP → Tensor → Tensor → Tensor → Tensor → Ext → Ext * result Tensor }.

(** ** The store *)

Record World := {
  class_layer_id : Z;
  inference_cuda_module : bool;
  configs : loc → Config;
  layer_pasts : loc → option KV;
  next_id : loc;
  trace : list Event;
  ext : Ext }.

Definition set_class_layer_id (n : Z) (w : World) : World :=
  {| class_layer_id := n;
     inference_cuda_module := inference_cuda_module w;
     configs := configs w; layer_pasts := layer_pasts w;
     next_id := next_id w; trace := trace w; ext := ext w |}.

Definition set_inference_cuda_module (b : bool) (w : World) : World :=
  {| class_layer_id := class_layer_id w;
     inference_cuda_module := b;
     configs := configs w; layer_pasts := layer_pasts w;
     next_id := next_id w; trace := trace w; ext := ext w |}.

Definition set_config (r : loc) (c : Config) (w : World) : World :=
  {| class_layer_id := class_layer_id w;
     inference_cuda_module := inference_cuda_module w;
     configs := <[r := c]> (configs w); layer_pasts := layer_pasts w;
     next_id := next_id w; trace := trace w; ext := ext w |}.

Definition set_layer_past (r : loc) (p : option KV) (w : World) : World :=
  {| class_layer_id := class_layer_id w;
     inference_cuda_module := inference_cuda_module w;
     configs := configs w; layer_pasts := <[r := p]> (layer_pasts w);
     next_id := next_id w; trace := trace w; ext := ext w |}.

Definition set_next_id (n : loc) (w : World) : World :=
  {| class_layer_id := class_layer_id w;
     inference_cuda_module := inference_cuda_module w;
     configs := configs w; layer_pasts := layer_pasts w;
     next_id := n; trace := trace w; ext := ext w |}.

Definition set_trace (t : list Event) (w : World) : World :=
  {| class_layer_id := class_layer_id w;
     inference_cuda_module := inference_cuda_module w;
     configs := configs w; layer_pasts := layer_pasts w;
     next_id := next_id w; trace := t; ext := ext w |}.

Definition set_ext (e : Ext) (w : World) : World :=
  {| class_layer_id := class_layer_id w;
     inference_cuda_module := inference_cuda_module w;
     configs := configs w; layer_pasts := layer_pasts w;
     next_id := next_id w; trace := trace w; ext := e |}.

(** A process that has imported the module and constructed nothing. *)
Definition boot (cs : loc → Config) (e : Ext) : World :=
  {| class_layer_id := 0;
     inference_cuda_module := false;
     configs := cs; layer_pasts := fun _ => None;
     next_id := 0%nat; trace := []; ext := e |}.

(** ** Store-and-exception monad *)

Definition M (A : Type) : Type := World → World * result A.

Definition ret {A} (a : A) : M A := fun w => (w, Ok a).

Definition raise {A} (e : exn) : M A := fun w => (w, Raise e).

Definition bind {A B} (m : M A) (k : A → M B) : M B :=
  fun w =>
    match m w with
    | (w', Ok a) => k a w'
    | (w', Raise e) => (w', Raise e)
    end.

Definition gets {A} (f : World → A) : M A := fun w => (w, Ok (f w)).

Definition modify (f : World → World) : M unit := fun w => (f w, Ok tt).

Definition lift {A} (r : result A) : M A := fun w => (w, r).

(** A call to a collaborator: it sees and updates [ext] only. *)
Definition extern {A} (f : Ext → Ext * result A) : M A :=
  fun w => let '(e, r) := f (ext w) in (set_ext e w, r).

Definition emit (e : Event) : M unit :=
  modify (fun w => set_trace (trace w ++ [e]) w).

Definition when (b : bool) (m : M unit) : M unit :=
  if b then m else ret tt.

Notation "'let*' x ':=' m 'in' k" := (bind m (fun x => k))
  (at level 10, x name, m at level 100, k at level 200).
Notation "'let*' ' p ':=' m 'in' k" := (bind m (fun p => k))
  (at level 10, p strict pattern, m at level 100, k at level 200).
Notation "m ';;' k" := (bind m (fun _ => k))
  (at level 100, k at level 200, right associativity).

(** ** torch *)

(** [l[i]] on a Python sequence. *)
Definition index {A} (l : list A) (i : nat) : result A :=
  match l !! i with
  | Some x => Ok x
  | None => Raise IndexError
  end.

(** [input.size()] and [input.shape]: a tuple has neither attribute. *)
Definition input_size (x : PyInput) : result (list Z) :=
  match x with
  | InTensor t => Ok (shape t)
  | InTuple _ => Raise AttributeError
  end.

Definition input_shape (x : PyInput) : result (list Z) :=
  match x with
  | InTensor t => Ok (shape t)
  | InTuple _ => Raise AttributeError
  end.

Variable K : Kernels.

(** [t.to(d)]: the tensor itself when it already has the type, otherwise a
    converted copy of type [d]. *)
Definition to (t : Tensor) (d : Dtype) : Tensor :=
  if decide (dtype t = d) then t
  else {| dtype := d; shape := shape t; device := device t;
          data := cast_data K (dtype t) d (data t) |}.

(** [t.half()] *)
Definition half (t : Tensor) : Tensor := to t Float16.

(** [torch.empty(n, dtype=d, device=dev)]: uninitialised storage; a
    negative size is refused. *)
Definition torch_empty (n : Z) (d : Dtype) (dev : Device) : M Tensor :=
  if (n <? 0)%Z then raise RuntimeError
  else
    let* x := gets (fun w => empty_data K n d dev (ext w)) in
    ret {| dtype := d; shape := [n]; device := dev; data := x |}.

(** ** [DeepSpeedTransformerInference.__init__] *)

Definition init (a : InitArgs) : M Layer :=
  (* self.config = config
     self.config.layer_id = DeepSpeedTransformerInference.layer_id *)
  let* n := gets class_layer_id in
  modify (fun w => set_config (config a) (set_layer_id (configs w (config a)) n) w) ;;
  (* DeepSpeedTransformerInference.layer_id += 1 *)
  let* n := gets class_layer_id in
  modify (set_class_layer_id (n + 1)%Z) ;;
  (* data_type = torch.half if config.fp16 else torch.float *)
  let* c := gets (fun w => configs w (config a)) in
  let data_type := if fp16 c then Float16 else Float32 in
  (* if inference_cuda_module is None: ... builder.load() *)
  let* loaded := gets inference_cuda_module in
  when (negb loaded)
    (emit EvLoad ;;
     extern (builder_load K) ;;
     modify (set_inference_cuda_module true)) ;;
  (* if DeepSpeedTransformerInference.layer_id == 1: log_dist(...) *)
  let* n := gets class_layer_id in
  when (n =? 1)%Z
    (let* c := gets (fun w => configs w (config a)) in
     emit (EvLogDist c)) ;;
  let attention :=
    {| at_config := config a; at_mp_group := mp_group a;
       at_quantize_scales := quantize_scales a;
       at_quantize_groups := quantize_groups a;
       at_merge_count := merge_count a;
       at_qkv_merging := qkv_merging a |} in
  let mlp :=
    {| ml_config := config a; ml_mp_group := mp_group a;
       ml_quantize_scales := quantize_scales a;
       ml_quantize_groups := quantize_groups a;
       ml_merge_count := merge_count a;
       ml_mlp_extra_grouping := mlp_extra_grouping a |} in
  (* device = torch.cuda.current_device() if config.bigscience_bloom else 'cpu' *)
  let* c := gets (fun w => configs w (config a)) in
  let* dev :=
    (if bigscience_bloom c
     then let* i := extern (fun e => (e, cuda_current_device K e)) in ret (CUDA i)
     else ret CPU) in
  let* c := gets (fun w => configs w (config a)) in
  let* norm_w := torch_empty (hidden_size c) data_type dev in
  let* c := gets (fun w => configs w (config a)) in
  let* norm_b := torch_empty (hidden_size c) data_type dev in
  (* self.layer_past = None *)
  let* self := gets next_id in
  modify (set_next_id (S self)) ;;
  modify (set_layer_past self None) ;;
  (* self.allocate_workspace = ..._fp32 if (not config.fp16) else ..._fp16 *)
  let* c := gets (fun w => configs w (config a)) in
  let allocate_workspace :=
    if negb (fp16 c) then allocate_workspace_fp32 else allocate_workspace_fp16 in
  ret {| self_id := self; self_config := config a;
         attention := attention; mlp := mlp;
         norm_w := norm_w; norm_b := norm_b;
         allocate_workspace := allocate_workspace |}.

(** ** [DeepSpeedTransformerInference.forward] *)

Definition forward (self : Layer) (input : PyInput) (a : FwdArgs) : M PyVal :=
  (* Allocate memory only on first layer forward
     if self.config.layer_id == 0: self.allocate_workspace(...) *)
  let* c := gets (fun w => configs w (self_config self)) in
  when (layer_id c =? 0)%Z
    (let* sz := lift (input_size input) in
     let* batch := lift (index sz 0) in
     let* sz := lift (input_size input) in
     let* seq_len := lift (index sz 1) in
     let* num_layers := gets class_layer_id in
     let* rank :=
       gets (fun w => if dist_is_initialized K (ext w)
                      then dist_get_rank K (ext w) else 0%Z) in
     let args :=
       {| aw_hidden_size := hidden_size c;
          aw_batch := batch;
          aw_seq_len := seq_len;
          aw_num_layers := num_layers;
          aw_heads := heads c;
          aw_mp_size := mp_size c;
          aw_bigscience_bloom := bigscience_bloom c;
          aw_rank := rank;
          aw_max_out_tokens := max_out_tokens c |} in
     emit (EvAllocate (allocate_workspace self) args) ;;
     extern (run_allocate_workspace K (allocate_workspace self) args)) ;;
  (* get_present = (get_present or get_key_value or use_cache) *)
  let get_present := get_present a || get_key_value a || use_cache a in
  (* input_mask = input_mask if attention_mask is None else attention_mask *)
  let input_mask :=
    match attention_mask a with
    | None => input_mask a
    | Some m => Some m
    end in
  (* We set the prev key/value to None when there is a prompt
     if input.shape[1] > 1: self.layer_past = None *)
  let* sh := lift (input_shape input) in
  let* seq_len := lift (index sh 1) in
  when (1 <? seq_len)%Z (modify (set_layer_past (self_id self) None)) ;;
  (* layer_past = layer_past if layer_past is not None else self.layer_past *)
  let* stored := gets (fun w => layer_pasts w (self_id self)) in
  let layer_past :=
    match layer_past a with
    | Some p => Some p
    | None => stored
    end in
  (* head_mask = layer_head_mask if layer_head_mask is not None else head_mask *)
  let head_mask :=
    match layer_head_mask a with
    | Some m => Some m
    | None => head_mask a
    end in
  (* attn_mask = None
     if isinstance(input, tuple): attn_mask = input[1]; input = input[0] *)
  let* '(attn_mask, input) :=
    match input with
    | InTuple items =>
        let* m := lift (index items 1) in
        let* x := lift (index items 0) in
        ret (VTensor m, x)
    | InTensor x => ret (VNone, x)
    end in
  let input_type := dtype input in
  (* if (self.config.fp16 or self.config.q_int8) and input.dtype == torch.float:
         input = input.half() *)
  let input :=
    if (fp16 c || q_int8 c) && bool_decide (dtype input = Float32)
    then half input else input in
  (* attention_output, key, value, context_outputtn_ctx, inp_norm = self.attention(...) *)
  let args :=
    {| aa_input := input;
       aa_input_mask := input_mask;
       aa_head_mask := head_mask;
       aa_layer_past := layer_past;
       aa_get_present := get_present;
       aa_encoder_hidden_states := encoder_hidden_states a;
       aa_encoder_attention_mask := encoder_attention_mask a;
       aa_output_attentions := output_attentions a;
       aa_norm_w := norm_w self;
       aa_norm_b := norm_b self;
       aa_alibi := alibi a |} in
  emit (EvAttention (attention self) args) ;;
  let* '(attention_output, key, value, context_outputtn_ctx, inp_norm) :=
    extern (run_attention K (attention self) args) in
  (* presents = (key, value)
     self.layer_past = presents if layer_past is None else None *)
  let presents := (key, value) in
  modify (set_layer_past (self_id self)
            (match layer_past with
             | None => Some presents
             | Some _ => None
             end)) ;;
  (* output = self.mlp(attention_output, input, inp_norm, self.attention.attn_ob) *)
  let* ob := gets (fun w => attn_ob K (attention self) (ext w)) in
  emit (EvMLP (mlp self) attention_output input inp_norm ob) ;;
  let* output := extern (run_mlp K (mlp self) attention_output input inp_norm ob) in
  (* if not self.config.pre_layer_norm: output = ds_layernorm(output, ...) *)
  let* output :=
    (if negb (pre_layer_norm c)
     then
       let* loaded := gets inference_cuda_module in
       (if loaded then ret tt else raise AttributeError) ;;
       let ds_layernorm :=
         if fp16 c || q_int8 c then layer_norm_fp16 else layer_norm_fp32 in
       emit (EvLayerNorm ds_layernorm output (norm_w self) (norm_b self) (epsilon c)) ;;
       extern (run_layer_norm K ds_layernorm output
                 (norm_w self) (norm_b self) (epsilon c))
     else ret output) in
  (* output = output.to(input_type) *)
  let output := to output input_type in
  (* if get_present: output = (output, presents) *)
  let output :=
    if get_present
    then VTuple [VTensor output; VTuple [VTensor (fst presents); VTensor (snd presents)]]
    else VTensor output in
  (* if self.config.return_tuple:
         return output if type(output) is tuple else (output, attn_mask)
     else: return output *)
  if return_tuple c
  then ret (match output with
            | VTuple _ => output
            | _ => VTuple [output; attn_mask]
            end)
  else ret output.

(** Views of one call, each the expression the source computes. *)

(** Line 131: the tensor handed to attention and MLP. *)
Definition cast_input (c : Config) (x : Tensor) : Tensor :=
  if (fp16 c || q_int8 c) && bool_decide (dtype x = Float32) then half x else x.

(** Lines 119 to 122: the cache handed to attention. *)
Definition stored_cache (w : World) (self : Layer) (seq_len : Z) : option KV :=
  if (1 <? seq_len)%Z then None else layer_pasts w (self_id self).

Definition resolved_cache (a : FwdArgs) (stored : option KV) : option KV :=
  match layer_past a with
  | Some p => Some p
  | None => stored
  end.

(** Line 154: the layer norm in use. *)
Definition ds_layernorm (c : Config) : NormKernel :=
  if fp16 c || q_int8 c then layer_norm_fp16 else layer_norm_fp32.

(** Lines 106 to 114. *)
Definition allocate_args (w : World) (c : Config) (batch seq_len : Z) : AllocArgs :=
  {| aw_hidden_size := hidden_size c;
     aw_batch := batch;
     aw_seq_len := seq_len;
     aw_num_layers := class_layer_id w;
     aw_heads := heads c;
     aw_mp_size := mp_size c;
     aw_bigscience_bloom := bigscience_bloom c;
     aw_rank := if dist_is_initialized K (ext w) then dist_get_rank K (ext w) else 0%Z;
     aw_max_out_tokens := max_out_tokens c |}.

(** Lines 137 to 147. *)
Definition attention_args (self : Layer) (c : Config) (a : FwdArgs)
    (x : Tensor) (cache : option KV) : AttnArgs :=
  {| aa_input := cast_input c x;
     aa_input_mask :=
       match attention_mask a with
       | None => input_mask a
       | Some m => Some m
       end;
     aa_head_mask :=
       match layer_head_mask a with
       | Some m => Some m
       | None => head_mask a
       end;
     aa_layer_past := cache;
     aa_get_present := get_present a || get_key_value a || use_cache a;
     aa_encoder_hidden_states := encoder_hidden_states a;
     aa_encoder_attention_mask := encoder_attention_mask a;
     aa_output_attentions := output_attentions a;
     aa_norm_w := norm_w self;
     aa_norm_b := norm_b self;
     aa_alibi := alibi a |}.

(** Lines 162 to 168. *)
Definition package (c : Config) (a : FwdArgs) (o key value : Tensor) : PyVal :=
  if get_present a || get_key_value a || use_cache a
  then VTuple [VTensor o; VTuple [VTensor key; VTensor value]]
  else if return_tuple c then VTuple [VTensor o; VNone] else VTensor o.

(** What a call that returned has done. *)
Inductive Returned (self : Layer) (input : PyInput) (a : FwdArgs)
    (w w' : World) (out : PyVal) : Prop :=
| returned (x : Tensor) (seq_len : Z) (e1 e2 e3 : Ext)
    (ao key value ctx inp_norm mo no : Tensor) :
    let c := configs w (self_config self) in
    let cache := resolved_cache a (stored_cache w self seq_len) in
    let args := attention_args self c a x cache in
    let ob := attn_ob K (attention self) e2 in
    input = InTensor x →
    shape x !! 1%nat = Some seq_len →
    (if (layer_id c =? 0)%Z
     then ∃ batch,
         shape x !! 0%nat = Some batch ∧
         run_allocate_workspace K (allocate_workspace self)
           (allocate_args w c batch seq_len) (ext w) = (e1, Ok tt)
     else e1 = ext w) →
    run_attention K (attention self) args e1 =
      (e2, Ok (ao, key, value, ctx, inp_norm)) →
    run_mlp K (mlp self) ao (cast_input c x) inp_norm ob e2 = (e3, Ok mo) →
    (if pre_layer_norm c
     then no = mo ∧ ext w' = e3
     else inference_cuda_module w = true ∧
          run_layer_norm K (ds_layernorm c) mo (norm_w self) (norm_b self)
            (epsilon c) e3 = (ext w', Ok no)) →
    out = package c a (to no (dtype x)) key value →
    configs w' = configs w →
    class_layer_id w' = class_layer_id w →
    layer_pasts w' (self_id self) =
      match cache with
      | None => Some (key, value)
      | Some _ => None
      end →
    (∀ r, r ≠ self_id self → layer_pasts w' r = layer_pasts w r) →
    trace w' =
      trace w
      ++ (if (layer_id c =? 0)%Z
          then [EvAllocate (allocate_workspace self)
                  (allocate_args w c (default 0%Z (shape x !! 0%nat)) seq_len)]
          else [])
      ++ [EvAttention (attention self) args;
          EvMLP (mlp self) ao (cast_input c x) inp_norm ob]
      ++ (if pre_layer_norm c then []
          else [EvLayerNorm (ds_layernorm c) mo (norm_w self) (norm_b self)
                  (epsilon c)]) →
    Returned self input a w w' out.


(** ** Observations on the trace and runs of several calls *)

(** How many times a workspace allocator was called. *)
Fixpoint allocations (t : list Event) : nat :=
  match t with
  | [] => 0
  | EvAllocate _ _ :: t => S (allocations t)
  | _ :: t => allocations t
  end.

(** The arguments of the attention calls, oldest first. *)
Fixpoint attention_calls (t : list Event) : list AttnArgs :=
  match t with
  | [] => []
  | EvAttention _ a :: t => a :: attention_calls t
  | _ :: t => attention_calls t
  end.

(** How many times a layer norm kernel was called. *)
Fixpoint layer_norm_calls (t : list Event) : nat :=
  match t with
  | [] => 0
  | EvLayerNorm _ _ _ _ _ :: t => S (layer_norm_calls t)
  | _ :: t => layer_norm_calls t
  end.

(** The output tensor of a returned value: the value itself, or the first
    component of the tuple. *)
Definition output_tensor (v : PyVal) : option Tensor :=
  match v with
  | VTensor o => Some o
  | VTuple (VTensor o :: _) => Some o
  | _ => None
  end.

(** A forward call reaches the allocator when the layer's configuration
    carries index 0 and [input.size()[0]], [input.size()[1]] exist. *)
Definition has_two_sizes (input : PyInput) : bool :=
  match input with
  | InTensor x => bool_decide (2 ≤ length (shape x))
  | InTuple _ => false
  end.

Definition allocates (w : World) (self : Layer) (input : PyInput) : bool :=
  (layer_id (configs w (self_config self)) =? 0)%Z && has_two_sizes input.

(** Forward calls one after the other; a call that raises leaves the store
    as it was at the raise and the next call goes on from there. *)
Fixpoint forward_all (calls : list (Layer * PyInput * FwdArgs)) (w : World) : World :=
  match calls with
  | [] => w
  | (self, input, a) :: calls => forward_all calls (forward self input a w).1
  end.

Definition allocating_calls (w : World)
    (calls : list (Layer * PyInput * FwdArgs)) : nat :=
  length (List.filter (λ c, allocates w c.1.1 c.1.2) calls).

(** The index a construction assigned: read through the new instance
    ([self.config.layer_id]) when there is one, through the configuration
    handed in when [__init__] raised. *)
Definition assigned_id (a : InitArgs) (o : World * result Layer) : Z :=
  match o.2 with
  | Ok self => layer_id (configs o.1 (self_config self))
  | Raise _ => layer_id (configs o.1 (config a))
  end.

(** Constructions one after the other, each with the index it assigned. *)
Fixpoint assigned_ids (cs : list InitArgs) (w : World) : list Z :=
  match cs with
  | [] => []
  | a :: cs => assigned_id a (init a w) :: assigned_ids cs (init a w).1
  end.

(** Constructions one after the other: the store at the end and what each
    construction returned or raised. *)
Fixpoint init_all (cs : list InitArgs) (w : World) : World * list (result Layer) :=
  match cs with
  | [] => (w, [])
  | a :: cs =>
      let o := init a w in
      let os := init_all cs o.1 in
      (os.1, o.2 :: os.2)
  end.

(** Two configuration objects that agree on every attribute but
    [layer_id]. *)
Definition same_but_layer_id (c c' : Config) : Prop :=
  hidden_size c' = hidden_size c ∧ heads c' = heads c ∧
  mp_size c' = mp_size c ∧ fp16 c' = fp16 c ∧ q_int8 c' = q_int8 c ∧
  pre_layer_norm c' = pre_layer_norm c ∧ epsilon c' = epsilon c ∧
  max_out_tokens c' = max_out_tokens c ∧
  bigscience_bloom c' = bigscience_bloom c ∧ return_tuple c' = return_tuple c.

(** The legacy keyword arguments of a call replaced. *)
Definition with_legacy (im hm : option Tensor) (pkv : option KV)
    (a : FwdArgs) : FwdArgs :=
  {| input_mask := im; attention_mask := attention_mask a;
     head_mask := hm; layer_past := layer_past a;
     get_key_value := get_key_value a; get_present := get_present a;
     encoder_output := encoder_output a;
     enc_dec_attn_mask := enc_dec_attn_mask a;
     encoder_hidden_states := encoder_hidden_states a;
     encoder_attention_mask := encoder_attention_mask a;
     use_cache := use_cache a; alibi := alibi a;
     output_attentions := output_attentions a;
     layer_head_mask := layer_head_mask a; past_key_value := pkv |}.

(** Steps that leave configuration objects, the class counter, the number
    of allocator calls and the caches of the layers in [P] as they were. *)
Definition quiet (P : loc → Prop) (w w' : World) : Prop :=
  configs w' = configs w ∧
  class_layer_id w' = class_layer_id w ∧
  allocations (trace w') = allocations (trace w) ∧
  ∀ r, P r → layer_pasts w' r = layer_pasts w r.

Definition keeps {A} (P : loc → Prop) (m : M A) : Prop :=
  ∀ w w' r, m w = (w', r) → quiet P w w'.

(** Steps that return, on every store in which the kernel module is
    loaded, and leave it loaded. *)
Definition returns {A} (m : M A) : Prop :=
  ∀ w, inference_cuda_module w = true →
       ∃ w' x, m w = (w', Ok x) ∧ inference_cuda_module w' = true.

(** ** Reasoning about the monad *)

Lemma bind_Ok {A B} (m : M A) (k : A → M B) w w' b :
  bind m k w = (w', Ok b) →
  ∃ w1 a, m w = (w1, Ok a) ∧ k a w1 = (w', Ok b).
Proof.
  unfold bind. destruct (m w) as [w1 [a|e]]; [eauto | discriminate].
Qed.

Lemma bind_inv {A B} (m : M A) (k : A → M B) w w' r :
  bind m k w = (w', r) →
  (∃ w1 a, m w = (w1, Ok a) ∧ k a w1 = (w', r)) ∨
  (∃ e, m w = (w', Raise e) ∧ r = Raise e).
Proof.
  unfold bind. destruct (m w) as [w1 [a|e]]; intros H.
  - left. eauto.
  - right. exists e. by simplify_eq.
Qed.

Lemma gets_inv {A} (f : World → A) w w' r :
  gets f w = (w', r) → w' = w ∧ r = Ok (f w).
Proof. unfold gets. by intros [= <- <-]. Qed.

Lemma modify_inv (f : World → World) w w' r :
  modify f w = (w', r) → w' = f w ∧ r = Ok tt.
Proof. unfold modify. by intros [= <- <-]. Qed.

Lemma emit_inv ev w w' r :
  emit ev w = (w', r) → w' = set_trace (trace w ++ [ev]) w ∧ r = Ok tt.
Proof. unfold emit. intros H. by apply modify_inv in H. Qed.

Lemma lift_inv {A} (x : result A) w w' r :
  lift x w = (w', r) → w' = w ∧ r = x.
Proof. unfold lift. by intros [= <- <-]. Qed.

Lemma ret_inv {A} (x : A) w w' r :
  ret x w = (w', r) → w' = w ∧ r = Ok x.
Proof. unfold ret. by intros [= <- <-]. Qed.

Lemma raise_inv {A} e w w' (r : result A) :
  raise e w = (w', r) → w' = w ∧ r = Raise e.
Proof. unfold raise. by intros [= <- <-]. Qed.

Lemma extern_inv {A} (f : Ext → Ext * result A) w w' r :
  extern f w = (w', r) → ∃ e, f (ext w) = (e, r) ∧ w' = set_ext e w.
Proof.
  unfold extern. destruct (f (ext w)) as [e r0]. intros [= <- <-]. eauto.
Qed.

(** One step of a run that returned. *)
Ltac mstep :=
  match goal with
  | H : bind _ _ _ = (_, Ok _) |- _ =>
      apply bind_Ok in H; destruct H as (? & ? & ? & H)
  | H : gets _ _ = (_, _) |- _ => apply gets_inv in H; destruct H as [? ?]
  | H : modify _ _ = (_, _) |- _ => apply modify_inv in H; destruct H as [? ?]
  | H : emit _ _ = (_, _) |- _ => apply emit_inv in H; destruct H as [? ?]
  | H : lift _ _ = (_, _) |- _ => apply lift_inv in H; destruct H as [? ?]
  | H : ret _ _ = (_, _) |- _ => apply ret_inv in H; destruct H as [? ?]
  | H : raise _ _ = (_, _) |- _ => apply raise_inv in H; destruct H as [? ?]
  | H : extern _ _ = (_, _) |- _ => apply extern_inv in H; destruct H as (? & ? & ?)
  | H : when ?b _ _ = (_, _) |- _ => unfold when in H; destruct b eqn:?
  | H : (if negb ?b then _ else _) _ = (_, _) |- _ =>
      destruct b eqn:?; cbn [negb] in H
  | H : (if ?b then _ else _) _ = (_, _) |- _ => destruct b eqn:?
  | H : (let '(_, _) := ?p in _) _ = (_, _) |- _ => destruct p
  | H : (match ?x with InTensor _ => _ | InTuple _ => _ end) _ = (_, _) |- _ =>
      destruct x
  | H : Ok _ = Ok _ |- _ => injection H as H
  | H : Raise _ = Ok _ |- _ => discriminate H
  | H : Ok _ = Raise _ |- _ => discriminate H
  end.


Lemma index_Ok {A} (l : list A) i x : index l i = Ok x → l !! i = Some x.
Proof. unfold index. destruct (l !! i); [by intros [= ->] | discriminate]. Qed.

Ltac rewrite_bools :=
  repeat match goal with
         | H : _ = true |- _ => rewrite H
         | H : _ = false |- _ => rewrite H
         | H : _ !! _ = Some _ |- _ => rewrite H
         end.

Lemma forward_returned self input a w w' out :
  forward self input a w = (w', Ok out) → Returned self input a w w' out.
Proof.
  unfold forward. intros H.
  repeat (mstep; subst); simpl in *; simplify_eq.
  all: repeat match goal with
         | H : Ok _ = index _ _ |- _ => symmetry in H; apply index_Ok in H
         | u : unit |- _ => destruct u
         end.
  all: simplify_eq.
  all: rewrite ?fn_lookup_insert in *.
  all: econstructor; [reflexivity | eassumption | ..].
  all: unfold stored_cache, resolved_cache, package, attention_args,
         allocate_args, cast_input, ds_layernorm; simpl.
  all: rewrite_bools; simpl.
  all: try match goal with
         | |- ∃ _, _ => eexists; split; [reflexivity | eassumption]
         end.
  all: try eassumption.
  all: try reflexivity.
  all: try (split; [reflexivity || assumption | reflexivity || eassumption]).
  all: try (by destruct (get_present a || get_key_value a || use_cache a)).
  all: try (by rewrite fn_lookup_insert).
  all: try (by intros r Hr; rewrite ?fn_lookup_insert_ne by done).
  all: try (by rewrite <- ?app_assoc).
Qed.


(** ** Steps that are [quiet] *)

Lemma quiet_refl P w : quiet P w w.
Proof. by repeat split. Qed.

Lemma quiet_trans P w1 w2 w3 : quiet P w1 w2 → quiet P w2 w3 → quiet P w1 w3.
Proof.
  intros (Hc1 & Hn1 & Ha1 & Hl1) (Hc2 & Hn2 & Ha2 & Hl2).
  repeat split; try congruence.
  intros r Hr. by rewrite Hl2, Hl1.
Qed.

Lemma allocations_app t1 t2 :
  allocations (t1 ++ t2) = (allocations t1 + allocations t2)%nat.
Proof.
  induction t1 as [|ev t1 IH]; [done|].
  destruct ev; simpl; by rewrite ?IH.
Qed.

Lemma attention_calls_app t1 t2 :
  attention_calls (t1 ++ t2) = attention_calls t1 ++ attention_calls t2.
Proof.
  induction t1 as [|ev t1 IH]; [done|].
  destruct ev; simpl; by rewrite ?IH.
Qed.

Lemma layer_norm_calls_app t1 t2 :
  layer_norm_calls (t1 ++ t2) = (layer_norm_calls t1 + layer_norm_calls t2)%nat.
Proof.
  induction t1 as [|ev t1 IH]; [done|].
  destruct ev; simpl; by rewrite ?IH.
Qed.

Section keeps.
Context (P : loc → Prop).

Lemma keeps_ret {A} (x : A) : keeps P (ret x).
Proof. intros w w' r [-> _]%ret_inv. apply quiet_refl. Qed.

Lemma keeps_raise {A} e : keeps P (raise (A:=A) e).
Proof. intros w w' r [-> _]%raise_inv. apply quiet_refl. Qed.

Lemma keeps_gets {A} (f : World → A) : keeps P (gets f).
Proof. intros w w' r [-> _]%gets_inv. apply quiet_refl. Qed.

Lemma keeps_lift {A} (x : result A) : keeps P (lift x).
Proof. intros w w' r [-> _]%lift_inv. apply quiet_refl. Qed.

Lemma keeps_extern {A} (f : Ext → Ext * result A) : keeps P (extern f).
Proof. intros w w' r (e & _ & ->)%extern_inv. by repeat split. Qed.

Lemma keeps_modify (f : World → World) :
  (∀ w, quiet P w (f w)) → keeps P (modify f).
Proof. intros Hf w w' r [-> _]%modify_inv. apply Hf. Qed.

Lemma keeps_emit ev :
  allocations [ev] = 0%nat → keeps P (emit ev).
Proof.
  intros Hev w w' r [-> _]%emit_inv. repeat split; simpl.
  rewrite allocations_app, Hev. lia.
Qed.

Lemma keeps_bind {A B} (m : M A) (k : A → M B) :
  keeps P m → (∀ x, keeps P (k x)) → keeps P (bind m k).
Proof.
  intros Hm Hk w w' r [(w1 & x & H1 & H2)|(e & H1 & _)]%bind_inv.
  - eapply quiet_trans; [by eapply Hm | by eapply Hk].
  - by eapply Hm.
Qed.

Lemma keeps_when b m : keeps P m → keeps P (when b m).
Proof. destruct b; [done|]. intros _. apply keeps_ret. Qed.

Lemma quiet_set_layer_past r p w : ¬ P r → quiet P w (set_layer_past r p w).
Proof.
  intros Hr. repeat split. intros x Hx. simpl.
  apply fn_lookup_insert_ne. by intros ->.
Qed.

Lemma quiet_set_inference_cuda_module b w :
  quiet P w (set_inference_cuda_module b w).
Proof. by repeat split. Qed.

Lemma quiet_set_next_id n w : quiet P w (set_next_id n w).
Proof. by repeat split. Qed.

End keeps.

(** Every step but the allocator call and the two writes of [__init__] is
    quiet; this follows the shape of the code. *)
Ltac quiet_steps :=
  repeat first
    [ apply keeps_ret
    | apply keeps_raise
    | apply keeps_gets
    | apply keeps_lift
    | apply keeps_extern
    | apply keeps_emit; reflexivity
    | apply keeps_modify; intros ?;
      first [ apply quiet_set_layer_past;
              intros Hx; first [exact Hx | exact (Hx eq_refl)]
            | apply quiet_set_inference_cuda_module
            | apply quiet_set_next_id ]
    | apply keeps_when
    | apply keeps_bind; [| intros ?]
    | match goal with
      | |- keeps _ (if ?b then _ else _) => destruct b
      | |- keeps _ (match ?x with InTensor _ => _ | InTuple _ => _ end) => destruct x
      | |- keeps _ (let '(_, _) := ?p in _) => destruct p
      end ].

Lemma torch_empty_keeps P n d dev : keeps P (torch_empty n d dev).
Proof. unfold torch_empty. quiet_steps. Qed.

(** One step of a run, whether it returned or raised. *)
Ltac mprim :=
  match goal with
  | H : gets _ _ = (_, _) |- _ => apply gets_inv in H; destruct H as [? ?]
  | H : modify _ _ = (_, _) |- _ => apply modify_inv in H; destruct H as [? ?]
  | H : emit _ _ = (_, _) |- _ => apply emit_inv in H; destruct H as [? ?]
  | H : lift _ _ = (_, _) |- _ => apply lift_inv in H; destruct H as [? ?]
  | H : ret _ _ = (_, _) |- _ => apply ret_inv in H; destruct H as [? ?]
  | H : raise _ _ = (_, _) |- _ => apply raise_inv in H; destruct H as [? ?]
  | H : extern _ _ = (_, _) |- _ => apply extern_inv in H; destruct H as (? & ? & ?)
  end.

Ltac mbind H :=
  apply bind_inv in H as [(? & ? & ? & H)|(? & ? & ?)].

Ltac mcase :=
  first [ mprim
        | match goal with H : bind _ _ _ = (_, _) |- _ => mbind H end ].

(** One forward call: what it does to the configuration objects, the class
    counter, the allocator count and the caches of the other layers, whether
    it returns or raises. *)
Lemma forward_step self input a w w' r :
  forward self input a w = (w', r) →
  configs w' = configs w ∧
  class_layer_id w' = class_layer_id w ∧
  allocations (trace w') =
    (allocations (trace w) + if allocates w self input then 1 else 0)%nat ∧
  ∀ l, l ≠ self_id self → layer_pasts w' l = layer_pasts w l.
Proof.
  unfold forward. intros H.
  apply bind_inv in H as [(w1 & c & Hg & H)|(? & Hg & _)];
    apply gets_inv in Hg as [? ?]; simplify_eq.
  lazymatch type of H with
  | bind ?m _ _ = _ =>
      assert (Hpre : ∀ w1 r1, m w = (w1, r1) →
        configs w1 = configs w ∧
        class_layer_id w1 = class_layer_id w ∧
        allocations (trace w1) =
          (allocations (trace w) + if allocates w self input then 1 else 0)%nat ∧
        layer_pasts w1 = layer_pasts w)
  end.
  { clear H. intros w1 r1 H. unfold when, allocates, has_two_sizes in *.
    destruct (layer_id (configs w (self_config self)) =? 0)%Z; simpl.
    - repeat (mcase; subst); simpl in *.
      all: destruct input as [tx|items]; simpl in *; simplify_eq.
      all: unfold index in *.
      all: try match goal with
             | tx : Tensor |- _ =>
                 destruct (shape tx) as [|b [|s l]]; simpl in *; simplify_eq
             end.
      all: rewrite ?allocations_app; simpl; repeat split; lia.
    - apply ret_inv in H as [-> _]. repeat split; lia. }
  apply bind_inv in H as [(w1 & [] & H1 & H)|(e & H1 & ->)].
  - lazymatch type of H with
    | ?m _ = _ => assert (Hk : keeps (λ l, l ≠ self_id self) m) by quiet_steps
    end.
    apply Hk in H as (Hc & Hn & Ha & Hl). clear Hk.
    apply Hpre in H1 as (Hc1 & Hn1 & Ha1 & Hl1).
    repeat split; try congruence.
    intros l Hne. by rewrite Hl, Hl1.
  - apply Hpre in H1 as (? & ? & ? & Hl1). by rewrite Hl1.
Qed.

Lemma forward_all_step calls w :
  configs (forward_all calls w) = configs w ∧
  allocations (trace (forward_all calls w)) =
    (allocations (trace w) + allocating_calls w calls)%nat.
Proof.
  revert w. induction calls as [|[[self input] a] calls IH]; intros w; simpl.
  - unfold allocating_calls. simpl. split; [done | lia].
  - destruct (forward self input a w) as [w1 r] eqn:Hf.
    apply forward_step in Hf as (Hc & _ & Ha & _). simpl.
    destruct (IH w1) as [IHc IHa]. split; [congruence|].
    rewrite IHa, Ha. unfold allocating_calls, allocates. simpl.
    rewrite Hc.
    destruct ((layer_id (configs w (self_config self)) =? 0)%Z && _); simpl; lia.
Qed.

(** Calls on other layers leave the cache of a layer alone. *)
Lemma forward_all_other_layers calls w l :
  Forall (λ c, self_id c.1.1 ≠ l) calls →
  layer_pasts (forward_all calls w) l = layer_pasts w l.
Proof.
  intros Hall. revert w.
  induction Hall as [|[[self input] a] calls Hne _ IH]; intros w; [done|].
  simpl in *. rewrite IH.
  destruct (forward self input a w) as [w1 r] eqn:Hf.
  apply forward_step in Hf as (_ & _ & _ & Hl). by apply Hl.
Qed.

(** One construction: the write into the configuration object, the class
    counter, whether [__init__] returns or raises. *)
Lemma init_step a w w' r :
  init a w = (w', r) →
  configs w' =
    <[config a := set_layer_id (configs w (config a)) (class_layer_id w)]> (configs w) ∧
  class_layer_id w' = (class_layer_id w + 1)%Z ∧
  allocations (trace w') = allocations (trace w).
Proof.
  unfold init. intros H.
  do 4 (mbind H; mprim; simplify_eq).
  lazymatch type of H with
  | ?m _ = _ =>
      assert (Hk : keeps (λ _, False) m)
        by (repeat first [apply torch_empty_keeps | progress quiet_steps])
  end.
  apply Hk in H as (Hc & Hn & Ha & _). simpl in *. by rewrite Hc, Hn, Ha.
Qed.

Lemma init_returned a w w' self :
  init a w = (w', Ok self) →
  self_config self = config a ∧
  self_id self = next_id w ∧
  layer_pasts w' (self_id self) = None ∧
  inference_cuda_module w' = true.
Proof.
  unfold init, torch_empty. intros H.
  repeat (mstep; subst); simpl in *; simplify_eq.
  all: rewrite fn_lookup_insert; repeat split.
  all: by destruct (inference_cuda_module w).
Qed.

Lemma dtype_to t d : dtype (to t d) = d.
Proof. unfold to. by destruct (decide (dtype t = d)). Qed.

Lemma assigned_id_init a w : assigned_id a (init a w) = class_layer_id w.
Proof.
  destruct (init a w) as [w' r] eqn:Hi. unfold assigned_id. simpl.
  pose proof (init_step _ _ _ _ Hi) as (Hc & _ & _).
  destruct r as [self|e].
  - apply init_returned in Hi as (-> & _). by rewrite Hc, fn_lookup_insert.
  - by rewrite Hc, fn_lookup_insert.
Qed.

Lemma assigned_ids_from cs w :
  assigned_ids cs w =
    (λ i : nat, (class_layer_id w + Z.of_nat i)%Z) <$> seq 0 (length cs).
Proof.
  revert w. induction cs as [|a cs IH]; intros w; [done|]. simpl.
  rewrite assigned_id_init, IH. f_equal; [lia|].
  destruct (init a w) as [w' r] eqn:Hi. simpl.
  apply init_step in Hi as (_ & -> & _).
  rewrite <- fmap_S_seq, <- list_fmap_compose.
  apply list_fmap_ext. intros _ i _. simpl. lia.
Qed.

(** C4: in a process that has constructed nothing yet, the indices assigned
    by any sequence of constructions are 0, 1, 2, ... in construction order:
    each construction gets the next integer, starting at zero, so no index
    is given twice. *)
Theorem layer_ids_count_up cfgs e cs :
  assigned_ids cs (boot cfgs e) = Z.of_nat <$> seq 0 (length cs) ∧
  NoDup (assigned_ids cs (boot cfgs e)).
Proof.
  assert (assigned_ids cs (boot cfgs e) = Z.of_nat <$> seq 0 (length cs)) as ->.
  { rewrite assigned_ids_from. apply list_fmap_ext. intros _ i _. simpl. lia. }
  split; [done|]. apply NoDup_fmap; [apply _ | apply NoDup_seq].
Qed.

Lemma init_all_step cs w :
  class_layer_id (init_all cs w).1 = (class_layer_id w + Z.of_nat (length cs))%Z ∧
  allocations (trace (init_all cs w).1) = allocations (trace w).
Proof.
  revert w. induction cs as [|a cs IH]; intros w; simpl.
  - split; [lia | done].
  - destruct (init a w) as [w1 r] eqn:Hi. simpl.
    apply init_step in Hi as (_ & Hn & Ha).
    destruct (IH w1) as [IHn IHa]. rewrite IHn, IHa, Hn, Ha. split; [lia | done].
Qed.

Lemma init_all_configs_other cs w r :
  r ∉ config <$> cs → configs (init_all cs w).1 r = configs w r.
Proof.
  revert w. induction cs as [|a cs IH]; intros w Hr; simpl; [done|].
  rewrite fmap_cons, not_elem_of_cons in Hr. destruct Hr as [Hne Hr].
  destruct (init a w) as [w1 r1] eqn:Hi. simpl.
  apply init_step in Hi as (Hc & _ & _).
  rewrite IH, Hc by done. by apply fn_lookup_insert_ne.
Qed.

(** With one configuration object per construction, object [i] keeps the
    index it was given whatever is constructed after it. *)
Lemma init_all_layer_id cs w i a :
  NoDup (config <$> cs) →
  cs !! i = Some a →
  layer_id (configs (init_all cs w).1 (config a)) = (class_layer_id w + Z.of_nat i)%Z.
Proof.
  revert w i. induction cs as [|a0 cs IH]; intros w i Hnd Hi; [done|].
  rewrite fmap_cons in Hnd. apply list.NoDup_cons in Hnd as [Hnotin Hnd]. simpl.
  destruct (init a0 w) as [w1 r1] eqn:Hinit. simpl.
  apply init_step in Hinit as (Hc & Hn & _).
  destruct i as [|i]; simpl in Hi.
  - simplify_eq. rewrite init_all_configs_other by done.
    rewrite Hc, fn_lookup_insert. simpl. lia.
  - rewrite (IH w1 i) by done. lia.
Qed.

Lemma init_all_lookup cs w i self :
  (init_all cs w).2 !! i = Some (Ok self) →
  ∃ a, cs !! i = Some a ∧ self_config self = config a.
Proof.
  revert w i. induction cs as [|a0 cs IH]; intros w i Hi; [done|].
  simpl in Hi. destruct i as [|i]; simpl in Hi.
  - exists a0. split; [done|].
    destruct (init a0 w) as [w1 r1] eqn:Hinit. simpl in Hi. simplify_eq.
    by apply init_returned in Hinit as (? & _).
  - by apply IH in Hi.
Qed.

(** C1 (as the code has it): over any run of forward calls, from any store,
    the workspace allocator is called once for every call made on a layer
    whose configuration carries index 0 with an input that has the two
    leading sizes, and for no other call; the number of allocator calls is
    the number of such forward calls.  After any sequence of constructions
    in a fresh process, each on a configuration object of its own, no
    allocator call has been made yet and the layer whose configuration
    carries index 0 is the first one constructed. *)
Theorem allocate_workspace_per_first_layer_forward :
  (∀ calls w,
     allocations (trace (forward_all calls w)) =
       (allocations (trace w) + allocating_calls w calls)%nat) ∧
  (∀ cfgs e cs,
     NoDup (config <$> cs) →
     allocations (trace (init_all cs (boot cfgs e)).1) = 0%nat ∧
     ∀ i self input,
       (init_all cs (boot cfgs e)).2 !! i = Some (Ok self) →
       allocates (init_all cs (boot cfgs e)).1 self input =
         bool_decide (i = 0%nat) && has_two_sizes input).
Proof.
  split; [intros calls w; apply forward_all_step|].
  intros cfgs e cs Hnd. split.
  - destruct (init_all_step cs (boot cfgs e)) as [_ Ha]. by rewrite Ha.
  - intros i self input (a & Ha & Hcfg)%init_all_lookup.
    unfold allocates. rewrite Hcfg, (init_all_layer_id _ _ i) by done. simpl.
    f_equal. destruct i as [|i]; [done|].
    rewrite bool_decide_eq_false_2 by done.
    apply Z.eqb_neq. cbn [class_layer_id boot]. lia.
Qed.

(** C10: a forward call whose input is a tuple raises [AttributeError] and
    leaves the store, trace included, untouched: the error comes from
    [input.size()] on a layer of index 0 and from [input.shape] otherwise,
    both ahead of the [isinstance(input, tuple)] branch. *)
Theorem tuple_input_raises self items a w :
  forward self (InTuple items) a w = (w, Raise AttributeError).
Proof.
  unfold forward, bind, gets, when, lift.
  cbn [input_size input_shape].
  by destruct (layer_id (configs w (self_config self)) =? 0)%Z.
Qed.

(** The attention call of a forward call that returned. *)
Lemma returned_attention self input a w w' out :
  forward self input a w = (w', Ok out) →
  ∃ x seq_len e e' ao key value ctx inp_norm no,
    let c := configs w (self_config self) in
    let cache := resolved_cache a (stored_cache w self seq_len) in
    let args := attention_args self c a x cache in
    input = InTensor x ∧
    shape x !! 1%nat = Some seq_len ∧
    attention_calls (trace w') = attention_calls (trace w) ++ [args] ∧
    run_attention K (attention self) args e = (e', Ok (ao, key, value, ctx, inp_norm)) ∧
    layer_pasts w' (self_id self) =
      match cache with
      | None => Some (key, value)
      | Some _ => None
      end ∧
    out = package c a (to no (dtype x)) key value.
Proof.
  intros [x seq_len e1 e2 e3 ao key value ctx inp_norm mo no c cache args ob
            Hin Hshape Halloc Hattn Hmlp Hnorm Hout Hc Hn Hpast Hother Htrace]
    %forward_returned.
  exists x, seq_len, e1, e2, ao, key, value, ctx, inp_norm, no.
  repeat split; try done.
  rewrite Htrace, !attention_calls_app.
  destruct (layer_id c =? 0)%Z, (pre_layer_norm c); simpl; by rewrite ?app_nil_r.
Qed.

(** C2 (as the code has it): a call with sequence length above 1 and no
    explicit cache hands attention an empty cache, whatever the layer had
    stored; the next call on the same layer, with sequence length 1 and no
    explicit cache, hands attention the (key, value) pair that the first
    call got back from attention, also when other layers were called in
    between. *)
Theorem decode_step_gets_prompt_cache
    self x1 s1 a1 others x2 a2 w w1 w2 out1 out2 :
  layer_past a1 = None →
  shape x1 !! 1%nat = Some s1 →
  (1 < s1)%Z →
  forward self (InTensor x1) a1 w = (w1, Ok out1) →
  Forall (λ c, self_id c.1.1 ≠ self_id self) others →
  layer_past a2 = None →
  shape x2 !! 1%nat = Some 1%Z →
  forward self (InTensor x2) a2 (forward_all others w1) = (w2, Ok out2) →
  ∃ args1 args2 e e' ao key value ctx inp_norm,
    attention_calls (trace w1) = attention_calls (trace w) ++ [args1] ∧
    aa_layer_past args1 = None ∧
    run_attention K (attention self) args1 e =
      (e', Ok (ao, key, value, ctx, inp_norm)) ∧
    attention_calls (trace w2) =
      attention_calls (trace (forward_all others w1)) ++ [args2] ∧
    aa_layer_past args2 = Some (key, value).
Proof.
  intros Ha1 Hs1 Hlt%Z.ltb_lt H1 Hothers Ha2 Hs2 H2.
  apply returned_attention in H1
    as (x & s & e & e' & ao & key & value & ctx & inp_norm & no &
        [= <-] & Hs & Hcalls1 & Hrun & Hpast & _).
  apply returned_attention in H2
    as (x' & s' & _ & _ & _ & _ & _ & _ & _ & _ &
        [= <-] & Hs' & Hcalls2 & _ & _ & _).
  rewrite Hs1 in Hs. rewrite Hs2 in Hs'. simplify_eq.
  unfold resolved_cache, stored_cache in *.
  rewrite Ha1 in Hcalls1, Hrun, Hpast. rewrite Ha2 in Hcalls2.
  rewrite Hlt in Hcalls1, Hrun, Hpast.
  change (1 <? 1)%Z with false in Hcalls2. cbv iota in Hcalls2.
  rewrite forward_all_other_layers, Hpast in Hcalls2 by done.
  by eexists _, _, e, e', ao, key, value, ctx, inp_norm.
Qed.

(** C3 (as the code has it): after a forward call that returned, the layer
    holds the new (key, value) pair whenever attention was handed an empty
    cache, that is, no [layer_past] argument was given and the stored cache
    was empty once the prompt reset had run; [past_key_value] plays no
    part.  When a [layer_past] argument was given the layer holds nothing. *)
Theorem cache_kept_when_attention_got_none self input a w w' out :
  forward self input a w = (w', Ok out) →
  ∃ x seq_len args e e' ao key value ctx inp_norm,
    input = InTensor x ∧
    shape x !! 1%nat = Some seq_len ∧
    attention_calls (trace w') = attention_calls (trace w) ++ [args] ∧
    run_attention K (attention self) args e =
      (e', Ok (ao, key, value, ctx, inp_norm)) ∧
    (layer_past a = None →
     stored_cache w self seq_len = None →
     aa_layer_past args = None ∧
     layer_pasts w' (self_id self) = Some (key, value)) ∧
    (∀ p, layer_past a = Some p →
     aa_layer_past args = Some p ∧ layer_pasts w' (self_id self) = None).
Proof.
  intros (x & s & e & e' & ao & key & value & ctx & inp_norm & no &
          -> & Hs & Hcalls & Hrun & Hpast & _)%returned_attention.
  eexists x, s, _, e, e', ao, key, value, ctx, inp_norm.
  do 4 (split; [done|]). unfold resolved_cache in *. split.
  - intros Ha Hst. simpl. rewrite Ha, Hst in *. done.
  - intros p Hp. simpl. rewrite Hp in *. done.
Qed.

(** C5: the output tensor of a forward call that returned has the data
    type the input tensor had when the call received it, also when the
    input was cast to half precision on the way. *)
Theorem output_dtype_is_input_dtype self input a w w' out :
  forward self input a w = (w', Ok out) →
  ∃ x o, input = InTensor x ∧ output_tensor out = Some o ∧ dtype o = dtype x.
Proof.
  intros (x & s & e & e' & ao & key & value & ctx & inp_norm & no &
          -> & _ & _ & _ & _ & ->)%returned_attention.
  exists x, (to no (dtype x)). split; [done|]. split; [|apply dtype_to].
  unfold package.
  by destruct (get_present a || get_key_value a || use_cache a),
       (return_tuple (configs w (self_config self))).
Qed.

(** C6 (as the code has it): a forward call that returned gives back the
    pair (output, (key, value)) when [get_present], [get_key_value] or
    [use_cache] is set, with (key, value) the pair attention returned;
    otherwise the bare output tensor, or, when [return_tuple] is
    configured, the two-element tuple (output, None). *)
Theorem return_value_packaging self input a w w' out :
  forward self input a w = (w', Ok out) →
  ∃ args e e' ao key value ctx inp_norm o,
    attention_calls (trace w') = attention_calls (trace w) ++ [args] ∧
    run_attention K (attention self) args e =
      (e', Ok (ao, key, value, ctx, inp_norm)) ∧
    output_tensor out = Some o ∧
    out =
      if get_present a || get_key_value a || use_cache a
      then VTuple [VTensor o; VTuple [VTensor key; VTensor value]]
      else if return_tuple (configs w (self_config self))
           then VTuple [VTensor o; VNone]
           else VTensor o.
Proof.
  intros (x & s & e & e' & ao & key & value & ctx & inp_norm & no &
          -> & _ & Hcalls & Hrun & _ & ->)%returned_attention.
  eexists _, e, e', ao, key, value, ctx, inp_norm, (to no (dtype x)).
  repeat split; try done. unfold package.
  by destruct (get_present a || get_key_value a || use_cache a),
       (return_tuple (configs w (self_config self))).
Qed.

(** C7: with post layer norm ([pre_layer_norm] false) the output of a
    forward call that returned is the layer norm kernel applied to the MLP
    output with the layer's [norm_w], [norm_b] and the configured epsilon,
    converted to the data type of the input; with [pre_layer_norm] true no
    layer norm kernel is called and the output is the MLP output converted
    to the data type of the input. *)
Theorem post_layer_norm_output self input a w w' out :
  forward self input a w = (w', Ok out) →
  ∃ x o ao inp_norm ob e3 e4 mo,
    let c := configs w (self_config self) in
    input = InTensor x ∧
    output_tensor out = Some o ∧
    run_mlp K (mlp self) ao (cast_input c x) inp_norm ob e3 = (e4, Ok mo) ∧
    (pre_layer_norm c = false →
     ∃ no e5,
       run_layer_norm K (ds_layernorm c) mo (norm_w self) (norm_b self)
         (epsilon c) e4 = (e5, Ok no) ∧
       o = to no (dtype x) ∧
       layer_norm_calls (trace w') = S (layer_norm_calls (trace w))) ∧
    (pre_layer_norm c = true →
     o = to mo (dtype x) ∧
     layer_norm_calls (trace w') = layer_norm_calls (trace w)).
Proof.
  intros [x seq_len e1 e2 e3 ao key value ctx inp_norm mo no c cache args ob
            Hin Hshape Halloc Hattn Hmlp Hnorm Hout Hc Hn Hpast Hother Htrace]
    %forward_returned.
  exists x, (to no (dtype x)), ao, inp_norm, ob, e2, e3, mo.
  split; [done|]. split.
  { rewrite Hout. unfold package.
    by destruct (get_present a || get_key_value a || use_cache a), (return_tuple c). }
  split; [done|].
  assert (layer_norm_calls (trace w') =
          (layer_norm_calls (trace w) + if pre_layer_norm c then 0 else 1)%nat)
    as Hcalls.
  { rewrite Htrace, !layer_norm_calls_app.
    destruct (layer_id c =? 0)%Z, (pre_layer_norm c); simpl; lia. }
  fold c. split; intros Hpre; rewrite Hpre in Hnorm, Hcalls.
  - destruct Hnorm as [_ Hnorm]. exists no, (ext w').
    split; [done|]. split; [done|]. lia.
  - destruct Hnorm as [-> _]. split; [done|]. lia.
Qed.

(** C8 (as the code has it): [__init__] writes the current class counter
    into the [layer_id] attribute of the configuration object it is handed,
    and changes no other attribute of it and no other configuration object;
    a forward call changes no configuration object. *)
Theorem config_written_by_init_only ia self input a w :
  configs (init ia w).1 =
    <[config ia := set_layer_id (configs w (config ia)) (class_layer_id w)]>
      (configs w) ∧
  (∀ r, same_but_layer_id (configs w r) (configs (init ia w).1 r)) ∧
  configs (forward self input a w).1 = configs w.
Proof.
  destruct (init ia w) as [w1 r1] eqn:Hi.
  destruct (forward self input a w) as [w2 r2] eqn:Hf. simpl.
  apply init_step in Hi as (Hc & _ & _).
  apply forward_step in Hf as (Hc2 & _ & _ & _).
  split; [done|]. split; [|done].
  intros r. rewrite Hc. unfold insert, fn_insert.
  destruct (decide (config ia = r)) as [->|_]; by repeat split.
Qed.

(** C9: legacy aliases given next to their new-style arguments change
    nothing: with [attention_mask] given, any [input_mask]; with
    [layer_head_mask] given, any [head_mask]; and any [past_key_value]
    leave the outcome of the call, store and result or exception alike,
    exactly as it is without them.  In a call that returned, attention was
    handed [attention_mask], [layer_head_mask] and [layer_past] whenever
    they were given. *)
Theorem explicit_arguments_win self input a w :
  (∀ im hm pkv,
     (attention_mask a = None → im = input_mask a) →
     (layer_head_mask a = None → hm = head_mask a) →
     forward self input (with_legacy im hm pkv a) w = forward self input a w) ∧
  (∀ w' out,
     forward self input a w = (w', Ok out) →
     ∃ args,
       attention_calls (trace w') = attention_calls (trace w) ++ [args] ∧
       (∀ m, attention_mask a = Some m → aa_input_mask args = Some m) ∧
       (∀ m, layer_head_mask a = Some m → aa_head_mask args = Some m) ∧
       (∀ p, layer_past a = Some p → aa_layer_past args = Some p)).
Proof.
  split.
  - intros im hm pkv Him Hhm. unfold forward, with_legacy.
    cbn [input_mask attention_mask head_mask layer_past get_key_value
         get_present encoder_output enc_dec_attn_mask encoder_hidden_states
         encoder_attention_mask use_cache alibi output_attentions
         layer_head_mask past_key_value].
    destruct (attention_mask a), (layer_head_mask a);
      rewrite ?Him, ?Hhm by done; reflexivity.
  - intros w' out
      (x & s & e & e' & ao & key & value & ctx & inp_norm & no &
       -> & _ & Hcalls & _ & _ & _)%returned_attention.
    eexists. split; [exact Hcalls|]. simpl. unfold resolved_cache.
    repeat split; intros ? ->; done.
Qed.

(** ** When a call returns *)

Lemma returns_ret {A} (x : A) : returns (ret x).
Proof. intros w Hw. by exists w, x. Qed.

Lemma returns_gets {A} (f : World → A) : returns (gets f).
Proof. intros w Hw. by exists w, (f w). Qed.

Lemma returns_modify (f : World → World) :
  (∀ w, inference_cuda_module (f w) = inference_cuda_module w) →
  returns (modify f).
Proof. intros Hf w Hw. exists (f w), tt. by rewrite Hf. Qed.

Lemma returns_emit ev : returns (emit ev).
Proof. by apply returns_modify. Qed.

Lemma returns_extern {A} (f : Ext → Ext * result A) :
  (∀ e, ∃ e' x, f e = (e', Ok x)) → returns (extern f).
Proof.
  intros Hf w Hw. destruct (Hf (ext w)) as (e' & x & He).
  exists (set_ext e' w), x. unfold extern. by rewrite He.
Qed.

Lemma returns_bind {A B} (m : M A) (k : A → M B) :
  returns m → (∀ x, returns (k x)) → returns (bind m k).
Proof.
  intros Hm Hk w Hw. destruct (Hm w Hw) as (w1 & x & H1 & Hw1).
  destruct (Hk x w1 Hw1) as (w2 & y & H2 & Hw2).
  exists w2, y. unfold bind. by rewrite H1.
Qed.

Lemma returns_bind_lift {A B} (x : A) (k : A → M B) :
  returns (k x) → returns (bind (lift (Ok x)) k).
Proof. intros Hk w Hw. exact (Hk w Hw). Qed.

Lemma returns_bind_loaded {B} (k : bool → M B) :
  returns (k true) → returns (bind (gets inference_cuda_module) k).
Proof.
  intros Hk w Hw. destruct (Hk w Hw) as (w' & y & H & Hw').
  exists w', y. unfold bind, gets. by rewrite Hw.
Qed.

Lemma returns_when b m : returns m → returns (when b m).
Proof. destruct b; [done|]. intros _. apply returns_ret. Qed.

(** X2: a forward call returns when its input is a tensor with the two
    leading sizes, the kernel module is loaded and no collaborator raises. *)
Theorem forward_returns self x a w :
  (∀ k args e, ∃ e' r, run_allocate_workspace K k args e = (e', Ok r)) →
  (∀ m args e, ∃ e' r, run_attention K m args e = (e', Ok r)) →
  (∀ m ao i n ob e, ∃ e' r, run_mlp K m ao i n ob e = (e', Ok r)) →
  (∀ k o nw nb eps e, ∃ e' r, run_layer_norm K k o nw nb eps e = (e', Ok r)) →
  2 ≤ length (shape x) →
  inference_cuda_module w = true →
  ∃ w' out, forward self (InTensor x) a w = (w', Ok out).
Proof.
  intros Halloc Hattn Hmlp Hnorm Hlen Hloaded.
  assert (returns (forward self (InTensor x) a)) as Hret.
  { unfold forward.
    destruct (shape x) as [|batch [|seq_len sizes]] eqn:Hshape;
      [simpl in Hlen; lia | simpl in Hlen; lia | clear Hlen].
    cbn [input_size input_shape]. rewrite Hshape.
    change (index (batch :: seq_len :: sizes) 0) with (Ok batch).
    change (index (batch :: seq_len :: sizes) 1) with (Ok seq_len).
    repeat first
      [ apply returns_ret
      | apply returns_gets
      | apply returns_emit
      | apply returns_modify; reflexivity
      | apply returns_extern; intros e;
        first [apply Halloc | apply Hattn | apply Hmlp | apply Hnorm]
      | apply returns_when
      | apply returns_bind_lift
      | apply returns_bind_loaded
      | apply returns_bind; [| intros ?]
      | match goal with
        | |- returns (if ?b then _ else _) => destruct b
        | |- returns (let '(_, _) := ?p in _) => destruct p
        end ]. }
  destruct (Hret w Hloaded) as (w' & out & H & _). by exists w', out.
Qed.

(** X1: a call that returned without a [layer_past] argument and found a cache
    stored (sequence length at most 1, stored cache not empty) handed that
    cache to attention and leaves the layer holding none. *)
Theorem cache_dropped_when_attention_got_stored self input a w w' out :
  forward self input a w = (w', Ok out) →
  layer_past a = None →
  ∃ x seq_len args,
    input = InTensor x ∧
    shape x !! 1%nat = Some seq_len ∧
    attention_calls (trace w') = attention_calls (trace w) ++ [args] ∧
    aa_layer_past args = stored_cache w self seq_len ∧
    (is_Some (stored_cache w self seq_len) →
     layer_pasts w' (self_id self) = None).
Proof.
  intros (x & s & e & e' & ao & key & value & ctx & inp_norm & no &
          -> & Hs & Hcalls & Hrun & Hpast & _)%returned_attention Ha.
  eexists x, s, _. do 3 (split; [done|]).
  unfold resolved_cache in *. rewrite Ha in *. split; [done|].
  intros [p Hp]. by rewrite Hp in Hpast.
Qed.

(** * More of [__init__] and [forward] *)

(** How many times the kernel module builder was asked to load. *)
Fixpoint loads (t : list Event) : nat :=
  match t with
  | [] => 0
  | EvLoad :: t => S (loads t)
  | _ :: t => loads t
  end.

(** The allocator calls, oldest first. *)
Fixpoint allocate_calls (t : list Event) : list (AllocKernel * AllocArgs) :=
  match t with
  | [] => []
  | EvAllocate k a :: t => (k, a) :: allocate_calls t
  | _ :: t => allocate_calls t
  end.

(** How many times an MLP sub-module was called. *)
Fixpoint mlp_calls (t : list Event) : nat :=
  match t with
  | [] => 0
  | EvMLP _ _ _ _ _ :: t => S (mlp_calls t)
  | _ :: t => mlp_calls t
  end.

(** What [forward] never touches: the class counter, the module global,
    the allocation of layer identities, the configuration objects. *)
Definition same_process (w w' : World) : Prop :=
  class_layer_id w' = class_layer_id w ∧
  inference_cuda_module w' = inference_cuda_module w ∧
  next_id w' = next_id w ∧
  configs w' = configs w.

(** What the end of [__init__] never touches: the trace, the class counter,
    the module global, the configuration objects. *)
Definition silent (w w' : World) : Prop :=
  trace w' = trace w ∧
  class_layer_id w' = class_layer_id w ∧
  inference_cuda_module w' = inference_cuda_module w ∧
  configs w' = configs w.

(** A computation all of whose runs, returned or raised, relate the store
    before to the store after. *)
Definition preserves {A} (R : World → World → Prop) (m : M A) : Prop :=
  ∀ w w' r, m w = (w', r) → R w w'.

Section preserves.
Context (R : World → World → Prop).
Context (R_refl : ∀ w, R w w).
Context (R_trans : ∀ w1 w2 w3, R w1 w2 → R w2 w3 → R w1 w3).

Lemma preserves_ret {A} (x : A) : preserves R (ret x).
Proof using R_refl. intros w w' r [-> _]%ret_inv. apply R_refl. Qed.

Lemma preserves_raise {A} e : preserves R (raise (A:=A) e).
Proof using R_refl. intros w w' r [-> _]%raise_inv. apply R_refl. Qed.

Lemma preserves_gets {A} (f : World → A) : preserves R (gets f).
Proof using R_refl. intros w w' r [-> _]%gets_inv. apply R_refl. Qed.

Lemma preserves_lift {A} (x : result A) : preserves R (lift x).
Proof using R_refl. intros w w' r [-> _]%lift_inv. apply R_refl. Qed.

Lemma preserves_modify (f : World → World) :
  (∀ w, R w (f w)) → preserves R (modify f).
Proof. intros Hf w w' r [-> _]%modify_inv. apply Hf. Qed.

Lemma preserves_emit ev :
  (∀ w, R w (set_trace (trace w ++ [ev]) w)) → preserves R (emit ev).
Proof. intros Hf w w' r [-> _]%emit_inv. apply Hf. Qed.

Lemma preserves_extern {A} (f : Ext → Ext * result A) :
  (∀ w e, R w (set_ext e w)) → preserves R (extern f).
Proof. intros Hf w w' r (e & _ & ->)%extern_inv. apply Hf. Qed.

Lemma preserves_bind {A B} (m : M A) (k : A → M B) :
  preserves R m → (∀ x, preserves R (k x)) → preserves R (bind m k).
Proof using R_trans.
  intros Hm Hk w w' r [(w1 & x & H1 & H2)|(e & H1 & _)]%bind_inv.
  - eapply R_trans; [by eapply Hm | by eapply Hk].
  - by eapply Hm.
Qed.

Lemma preserves_when b m : preserves R m → preserves R (when b m).
Proof using R_refl. destruct b; [done|]. intros _. apply preserves_ret. Qed.

End preserves.

Lemma same_process_refl w : same_process w w.
Proof. by repeat split. Qed.

Lemma same_process_trans w1 w2 w3 :
  same_process w1 w2 → same_process w2 w3 → same_process w1 w3.
Proof. intros (?&?&?&?) (?&?&?&?). repeat split; congruence. Qed.

Lemma silent_refl w : silent w w.
Proof. by repeat split. Qed.

Lemma silent_trans w1 w2 w3 : silent w1 w2 → silent w2 w3 → silent w1 w3.
Proof. intros (?&?&?&?) (?&?&?&?). repeat split; congruence. Qed.

(** Follows the code step by step; what is left are the steps that do not
    keep [R]. *)
Ltac preserves_steps Rrefl Rtrans :=
  repeat first
    [ apply (preserves_ret _ Rrefl)
    | apply (preserves_raise _ Rrefl)
    | apply (preserves_gets _ Rrefl)
    | apply (preserves_lift _ Rrefl)
    | apply preserves_extern; intros ? ?; by repeat split
    | apply preserves_emit; intros ?; by repeat split
    | apply preserves_modify; intros ?; by repeat split
    | apply (preserves_when _ Rrefl)
    | apply (preserves_bind _ Rtrans); [| intros ?]
    | match goal with
      | |- preserves _ (if ?b then _ else _) => destruct b
      | |- preserves _ (match ?x with InTensor _ => _ | InTuple _ => _ end) =>
          destruct x
      | |- preserves _ (let '(_, _) := ?p in _) => destruct p
      end ].

Lemma forward_same_process self input a :
  preserves same_process (forward self input a).
Proof.
  unfold forward. preserves_steps same_process_refl same_process_trans.
Qed.

(** X3: a forward call, whether it returns or raises, leaves the class
    counter, the loaded kernel module and every configuration object as
    they were, and the stored cache of every layer but its own. *)
Theorem forward_touches_own_cache_only self input a w :
  class_layer_id (forward self input a w).1 = class_layer_id w ∧
  inference_cuda_module (forward self input a w).1 = inference_cuda_module w ∧
  configs (forward self input a w).1 = configs w ∧
  ∀ other : Layer,
    self_id other ≠ self_id self →
    layer_pasts (forward self input a w).1 (self_id other) =
      layer_pasts w (self_id other).
Proof.
  destruct (forward self input a w) as [w' r] eqn:Hf. simpl.
  pose proof (forward_same_process _ _ _ _ _ _ Hf) as (Hn & Hm & _ & Hc).
  apply forward_step in Hf as (_ & _ & _ & Hl).
  repeat split; try done. intros other Hne. by apply Hl.
Qed.

(** X4: a tensor with fewer than two dimensions makes a forward call raise
    [IndexError] and leaves the store untouched; the allocator is not
    called, since its arguments are evaluated first. *)
Theorem short_tensor_raises self x a w :
  length (shape x) < 2 →
  forward self (InTensor x) a w = (w, Raise IndexError).
Proof.
  intros Hlen. unfold forward, bind, gets, when, lift.
  cbn [input_size input_shape]. unfold index.
  destruct (shape x) as [|b [|s l]]; simpl in *; [| |lia];
    by destruct (layer_id (configs w (self_config self)) =? 0)%Z.
Qed.

(** ** Calls that raise half way *)

Lemma two_sizes (x : Tensor) batch seq_len :
  shape x !! 0%nat = Some batch →
  shape x !! 1%nat = Some seq_len →
  ∃ sizes, shape x = batch :: seq_len :: sizes.
Proof.
  destruct (shape x) as [|b [|s l]]; intros Hb Hs; simpl in *; simplify_eq.
  by exists l.
Qed.

Lemma mlp_calls_app t1 t2 :
  mlp_calls (t1 ++ t2) = (mlp_calls t1 + mlp_calls t2)%nat.
Proof.
  induction t1 as [|ev t1 IH]; [done|].
  destruct ev; simpl; by rewrite ?IH.
Qed.

Lemma allocate_calls_app t1 t2 :
  allocate_calls (t1 ++ t2) = allocate_calls t1 ++ allocate_calls t2.
Proof.
  induction t1 as [|ev t1 IH]; [done|].
  destruct ev; simpl; by rewrite ?IH.
Qed.

Lemma loads_app t1 t2 : loads (t1 ++ t2) = (loads t1 + loads t2)%nat.
Proof.
  induction t1 as [|ev t1 IH]; [done|].
  destruct ev; simpl; by rewrite ?IH.
Qed.

(** Running a computation forwards, one step at a time. *)

Lemma bind_gets {A B} (f : World → A) (k : A → M B) w :
  bind (gets f) k w = k (f w) w.
Proof. reflexivity. Qed.

Lemma bind_modify {B} (f : World → World) (k : unit → M B) w :
  bind (modify f) k w = k tt (f w).
Proof. reflexivity. Qed.

Lemma bind_emit {B} ev (k : unit → M B) w :
  bind (emit ev) k w = k tt (set_trace (trace w ++ [ev]) w).
Proof. reflexivity. Qed.

Lemma bind_lift_Ok {A B} (x : A) (k : A → M B) w :
  bind (lift (Ok x)) k w = k x w.
Proof. reflexivity. Qed.

Lemma bind_ret {A B} (x : A) (k : A → M B) w : bind (ret x) k w = k x w.
Proof. reflexivity. Qed.

Lemma bind_extern_Ok {A B} (f : Ext → Ext * result A) (k : A → M B) w e x :
  f (ext w) = (e, Ok x) → bind (extern f) k w = k x (set_ext e w).
Proof. intros H. unfold bind, extern. by rewrite H. Qed.

Lemma bind_extern_Raise {A B} (f : Ext → Ext * result A) (k : A → M B) w e err :
  f (ext w) = (e, Raise err) → bind (extern f) k w = (set_ext e w, Raise err).
Proof. intros H. unfold bind, extern. by rewrite H. Qed.

Lemma bind_bind {A B C} (m : M A) (f : A → M B) (g : B → M C) w :
  bind (bind m f) g w = bind m (λ x, bind (f x) g) w.
Proof. unfold bind. by destruct (m w) as [w1 [x|e]]. Qed.

Lemma bind_when_true {B} (m : M unit) (k : unit → M B) w :
  bind (when true m) k w = bind m k w.
Proof. reflexivity. Qed.

Lemma bind_when_false {B} (m : M unit) (k : unit → M B) w :
  bind (when false m) k w = k tt w.
Proof. reflexivity. Qed.

Ltac run_steps :=
  repeat first
    [ rewrite bind_when_true
    | rewrite bind_when_false
    | rewrite bind_bind
    | rewrite bind_gets
    | rewrite bind_modify
    | rewrite bind_emit
    | rewrite bind_lift_Ok
    | rewrite bind_ret
    | match goal with
      | |- context [index (?b :: ?s :: ?l) 0] =>
          change (index (b :: s :: l) 0) with (Ok b)
      | |- context [index (?b :: ?s :: ?l) 1] =>
          change (index (b :: s :: l) 1) with (Ok s)
      end
    | progress cbv beta iota zeta ].

Ltac run_forward Hshape :=
  unfold forward;
  cbn [input_size input_shape]; rewrite Hshape.

(** X5: when the attention sub-module raises, the forward call raises the
    same exception; the prompt reset of the stored cache has already
    happened and stays, and the MLP is not called. *)
Theorem attention_failure_propagates self x a w batch seq_len e1 e2 err :
  shape x !! 0%nat = Some batch →
  shape x !! 1%nat = Some seq_len →
  (if (layer_id (configs w (self_config self)) =? 0)%Z
   then run_allocate_workspace K (allocate_workspace self)
          (allocate_args w (configs w (self_config self)) batch seq_len) (ext w) =
          (e1, Ok tt)
   else e1 = ext w) →
  run_attention K (attention self)
    (attention_args self (configs w (self_config self)) a x
       (resolved_cache a (stored_cache w self seq_len))) e1 = (e2, Raise err) →
  ∃ w', forward self (InTensor x) a w = (w', Raise err) ∧
        layer_pasts w' (self_id self) = stored_cache w self seq_len ∧
        mlp_calls (trace w') = mlp_calls (trace w) ∧
        ext w' = e2.
Proof.
  intros Hb Hs Halloc Hattn.
  destruct (two_sizes _ _ _ Hb Hs) as [sizes Hshape].
  run_forward Hshape. unfold stored_cache in *. run_steps.
  destruct (layer_id (configs w (self_config self)) =? 0)%Z; run_steps;
    [erewrite bind_extern_Ok by exact Halloc; run_steps | subst e1].
  all: destruct (1 <? seq_len)%Z; run_steps.
  all: erewrite bind_extern_Raise by (simpl; rewrite ?fn_lookup_insert; exact Hattn).
  all: eexists; split; [reflexivity|]; simpl.
  all: rewrite ?fn_lookup_insert, ?mlp_calls_app; simpl.
  all: repeat split; lia.
Qed.

(** X6: when the MLP sub-module raises, the forward call raises the same
    exception, and the layer's cache has already been replaced with what
    the call would have left on return; no layer norm kernel is called. *)
Theorem mlp_failure_after_cache_update
    self x a w batch seq_len e1 e2 e3 ao key value ctx inp_norm err :
  shape x !! 0%nat = Some batch →
  shape x !! 1%nat = Some seq_len →
  (if (layer_id (configs w (self_config self)) =? 0)%Z
   then run_allocate_workspace K (allocate_workspace self)
          (allocate_args w (configs w (self_config self)) batch seq_len) (ext w) =
          (e1, Ok tt)
   else e1 = ext w) →
  run_attention K (attention self)
    (attention_args self (configs w (self_config self)) a x
       (resolved_cache a (stored_cache w self seq_len))) e1 =
    (e2, Ok (ao, key, value, ctx, inp_norm)) →
  run_mlp K (mlp self) ao (cast_input (configs w (self_config self)) x) inp_norm
    (attn_ob K (attention self) e2) e2 = (e3, Raise err) →
  ∃ w', forward self (InTensor x) a w = (w', Raise err) ∧
        layer_pasts w' (self_id self) =
          match resolved_cache a (stored_cache w self seq_len) with
          | None => Some (key, value)
          | Some _ => None
          end ∧
        layer_norm_calls (trace w') = layer_norm_calls (trace w) ∧
        ext w' = e3.
Proof.
  intros Hb Hs Halloc Hattn Hmlp.
  destruct (two_sizes _ _ _ Hb Hs) as [sizes Hshape].
  run_forward Hshape. unfold stored_cache in *. run_steps.
  destruct (layer_id (configs w (self_config self)) =? 0)%Z; run_steps;
    [erewrite bind_extern_Ok by exact Halloc; run_steps | subst e1].
  all: destruct (1 <? seq_len)%Z; run_steps.
  all: erewrite bind_extern_Ok by (simpl; rewrite ?fn_lookup_insert; exact Hattn).
  all: run_steps.
  all: erewrite bind_extern_Raise by exact Hmlp.
  all: eexists; split; [reflexivity|]; simpl.
  all: rewrite ?fn_lookup_insert, ?layer_norm_calls_app; simpl.
  all: repeat split; lia.
Qed.

(** X7: when the workspace allocator raises on a layer of index 0, the
    forward call raises the same exception right after that one allocator
    call: attention is not called and every stored cache is as before. *)
Theorem allocator_failure_propagates self x a w batch seq_len e1 err :
  shape x !! 0%nat = Some batch →
  shape x !! 1%nat = Some seq_len →
  layer_id (configs w (self_config self)) = 0%Z →
  run_allocate_workspace K (allocate_workspace self)
    (allocate_args w (configs w (self_config self)) batch seq_len) (ext w) =
    (e1, Raise err) →
  ∃ w', forward self (InTensor x) a w = (w', Raise err) ∧
        layer_pasts w' = layer_pasts w ∧
        allocations (trace w') = S (allocations (trace w)) ∧
        attention_calls (trace w') = attention_calls (trace w) ∧
        ext w' = e1.
Proof.
  intros Hb Hs Hid Halloc.
  destruct (two_sizes _ _ _ Hb Hs) as [sizes Hshape].
  run_forward Hshape. run_steps. rewrite Hid. change (0 =? 0)%Z with true.
  run_steps. erewrite bind_extern_Raise by exact Halloc.
  eexists; split; [reflexivity|]; simpl.
  rewrite allocations_app, attention_calls_app; simpl.
  rewrite app_nil_r. repeat split; lia.
Qed.

(** ** More of [__init__] *)


(** X8: what a construction that returned has built: the sub-modules share
    the configuration object handed in; the two normalisation parameters
    have one dimension of [hidden_size] entries (not negative), half
    precision exactly when [fp16] is set, on the CPU unless
    [bigscience_bloom] is set; the allocator is the half precision one
    exactly when [fp16] is set; the new layer holds no cache and the kernel
    module is loaded. *)
Theorem init_result a w w' self :
  init a w = (w', Ok self) →
  let c := configs w (config a) in
  let data_type := if fp16 c then Float16 else Float32 in
  self_config self = config a ∧
  at_config (attention self) = config a ∧
  ml_config (mlp self) = config a ∧
  (0 ≤ hidden_size c)%Z ∧
  dtype (norm_w self) = data_type ∧ shape (norm_w self) = [hidden_size c] ∧
  dtype (norm_b self) = data_type ∧ shape (norm_b self) = [hidden_size c] ∧
  device (norm_b self) = device (norm_w self) ∧
  (bigscience_bloom c = false → device (norm_w self) = CPU) ∧
  allocate_workspace self =
    (if fp16 c then allocate_workspace_fp16 else allocate_workspace_fp32) ∧
  layer_pasts w' (self_id self) = None ∧
  inference_cuda_module w' = true.
Proof.
  unfold init, torch_empty. intros H.
  repeat (mstep; subst); simpl in *; simplify_eq.
  all: rewrite ?fn_lookup_insert in *; simpl in *.
  all: repeat match goal with
         | H : (_ <? _)%Z = false |- _ => apply Z.ltb_ge in H
         end.
  all: repeat split; try done; try lia.
  all: try (by destruct (fp16 (configs w (config a)))).
  all: try (by destruct (inference_cuda_module w)).
  all: intros Hcpu; congruence.
Qed.

Lemma torch_empty_silent n d dev : preserves silent (torch_empty n d dev).
Proof.
  unfold torch_empty. preserves_steps silent_refl silent_trans.
Qed.

(** The trace of one construction, whether it returns or raises, when the
    builder does not raise. *)
Lemma init_trace a w w' r :
  (∀ e, ∃ e', builder_load K e = (e', Ok tt)) →
  init a w = (w', r) →
  inference_cuda_module w' = true ∧
  trace w' =
    trace w
    ++ (if inference_cuda_module w then [] else [EvLoad])
    ++ (if (class_layer_id w =? 0)%Z
        then [EvLogDist (set_layer_id (configs w (config a)) (class_layer_id w))]
        else []).
Proof.
  intros Hload. unfold init. run_steps.
  destruct (Hload (ext w)) as [e' He'].
  cbn [class_layer_id inference_cuda_module configs ext
       set_class_layer_id set_config].
  destruct (inference_cuda_module w) eqn:Hm; cbn [negb]; run_steps.
  2: erewrite bind_extern_Ok by (simpl; exact He'); run_steps.
  all: cbn [class_layer_id inference_cuda_module configs ext trace
            set_class_layer_id set_config set_trace set_ext
            set_inference_cuda_module].
  all: assert ((class_layer_id w + 1 =? 1)%Z = (class_layer_id w =? 0)%Z) as ->
    by (destruct (Z.eqb_spec (class_layer_id w) 0),
                 (Z.eqb_spec (class_layer_id w + 1) 1); lia).
  all: destruct (class_layer_id w =? 0)%Z; run_steps.
  all: intros H.
  all: lazymatch type of H with
       | ?m _ = _ =>
           assert (Hk : preserves silent m)
             by (repeat first [ apply torch_empty_silent
                              | progress preserves_steps silent_refl silent_trans ])
       end.
  all: apply Hk in H as (Ht & _ & Hm' & _); simpl in *.
  all: rewrite Ht, Hm', ?Hm, ?fn_lookup_insert, <- ?app_assoc, ?app_nil_r; done.
Qed.

Lemma init_all_trace_loaded cs w :
  (∀ e, ∃ e', builder_load K e = (e', Ok tt)) →
  inference_cuda_module w = true →
  (0 < class_layer_id w)%Z →
  trace (init_all cs w).1 = trace w ∧
  (cs ≠ [] → inference_cuda_module (init_all cs w).1 = true).
Proof.
  intros Hload. revert w. induction cs as [|a cs IH]; intros w Hm Hpos; [done|].
  simpl. destruct (init a w) as [w1 r] eqn:Hi. simpl.
  pose proof (init_trace _ _ _ _ Hload Hi) as [Hm1 Ht1].
  apply init_step in Hi as (_ & Hn & _).
  rewrite Hm in Ht1. assert ((class_layer_id w =? 0)%Z = false) as Hz by lia.
  rewrite Hz, !app_nil_r in Ht1.
  destruct (IH w1) as [IHt IHm]; [done | lia |].
  split; [congruence|]. intros _. destruct cs; [done | by apply IHm].
Qed.

(** X9: in a fresh process whose builder does not raise, the kernel module
    is loaded by the first construction and by no later one, and the
    configuration is logged once, by the first construction, with index 0:
    after any non-empty sequence of constructions, returned or raised, these
    two calls are the whole trace and the module is loaded. *)
Theorem kernel_module_loaded_once cfgs e a cs :
  (∀ e, ∃ e', builder_load K e = (e', Ok tt)) →
  trace (init_all (a :: cs) (boot cfgs e)).1 =
    [EvLoad; EvLogDist (set_layer_id (cfgs (config a)) 0)] ∧
  loads (trace (init_all (a :: cs) (boot cfgs e)).1) = 1%nat ∧
  inference_cuda_module (init_all (a :: cs) (boot cfgs e)).1 = true.
Proof.
  intros Hload. simpl.
  destruct (init a (boot cfgs e)) as [w1 r] eqn:Hi. simpl.
  pose proof (init_trace _ _ _ _ Hload Hi) as [Hm1 Ht1].
  apply init_step in Hi as (_ & Hn & _). simpl in *.
  destruct (init_all_trace_loaded cs w1 Hload Hm1) as [Ht Hm]; [lia|].
  rewrite Ht, Ht1. repeat split.
  destruct cs; [done | by apply Hm].
Qed.

(** With one configuration object shared by every construction, the object
    carries the index of the last construction. *)
Lemma shared_config_last_index cs w r :
  Forall (λ a, config a = r) cs →
  cs ≠ [] →
  layer_id (configs (init_all cs w).1 r) =
    (class_layer_id w + Z.of_nat (length cs) - 1)%Z.
Proof.
  intros Hall. revert w.
  induction Hall as [|a cs Ha Hall IH]; intros w Hne; [done|]. clear Hne.
  simpl. destruct (init a w) as [w1 r1] eqn:Hi. simpl.
  apply init_step in Hi as (Hc & Hn & _).
  destruct cs as [|a' cs].
  - simpl. rewrite Hc, <- Ha, fn_lookup_insert. simpl. lia.
  - rewrite IH by done. rewrite Hn. simpl length. lia.
Qed.

(** X10: when two or more layers are constructed on one shared
    configuration object in a fresh process, every layer reads the index of
    the last construction from it, so no layer has index 0 and no forward
    call on any of them calls the workspace allocator. *)
Theorem shared_config_never_allocates cfgs e cs r calls :
  Forall (λ a, config a = r) cs →
  2 ≤ length cs →
  Forall (λ c, Ok c.1.1 ∈ (init_all cs (boot cfgs e)).2) calls →
  layer_id (configs (init_all cs (boot cfgs e)).1 r) = (Z.of_nat (length cs) - 1)%Z ∧
  allocations (trace (forward_all calls (init_all cs (boot cfgs e)).1)) = 0%nat.
Proof.
  intros Hall Hlen Hcalls.
  assert (cs ≠ []) as Hne by (intros ->; simpl in Hlen; lia).
  pose proof (shared_config_last_index cs (boot cfgs e) r Hall Hne) as Hid.
  simpl in Hid. rewrite Z.add_0_l in Hid. split; [done|].
  destruct (forward_all_step calls (init_all cs (boot cfgs e)).1) as [_ ->].
  destruct (init_all_step cs (boot cfgs e)) as [_ ->]. simpl.
  unfold allocating_calls. induction Hcalls as [|[[self input] fa] calls Hc _ IH];
    [done|].
  simpl in *. apply list_elem_of_lookup in Hc as [i Hi].
  apply init_all_lookup in Hi as (a0 & Ha0 & Hcfg).
  assert (config a0 = r) as Hr.
  { exact (Forall_lookup_1 _ _ _ _ Hall Ha0). }
  unfold allocates at 1. simpl. rewrite Hcfg, Hr, Hid.
  assert ((Z.of_nat (length cs) - 1 =? 0)%Z = false) as -> by lia.
  simpl. apply IH.
Qed.

Lemma allocations_length t : allocations t = length (allocate_calls t).
Proof. induction t as [|ev t IH]; [done|]. destruct ev; simpl; by rewrite ?IH. Qed.

(** X11: the allocator call of a forward call on a layer of index 0 passes
    the two leading sizes of the input as batch size and sequence length,
    the attributes of the layer's configuration, rank 0 unless the process
    group is initialised, and, as number of layers, the class counter: in a
    process that has done nothing but construct layers, the number of
    constructions made so far, returned or raised. *)
Theorem allocator_told_layers_constructed cfgs e cs self input a w' out :
  let w := (init_all cs (boot cfgs e)).1 in
  let c := configs w (self_config self) in
  forward self input a w = (w', Ok out) →
  layer_id c = 0%Z →
  ∃ x batch seq_len,
    input = InTensor x ∧
    shape x !! 0%nat = Some batch ∧
    shape x !! 1%nat = Some seq_len ∧
    allocate_calls (trace w') =
      [(allocate_workspace self,
        {| aw_hidden_size := hidden_size c;
           aw_batch := batch;
           aw_seq_len := seq_len;
           aw_num_layers := Z.of_nat (length cs);
           aw_heads := heads c;
           aw_mp_size := mp_size c;
           aw_bigscience_bloom := bigscience_bloom c;
           aw_rank :=
             if dist_is_initialized K (ext w) then dist_get_rank K (ext w) else 0%Z;
           aw_max_out_tokens := max_out_tokens c |})].
Proof.
  intros w c
    [x seq_len e1 e2 e3 ao key value ctx inp_norm mo no c' cache args ob
       Hin Hshape Halloc Hattn Hmlp Hnorm Hout Hc Hn Hpast Hother Htrace]
    %forward_returned Hid.
  subst c'. fold c in Halloc, Htrace. rewrite Hid in Halloc, Htrace.
  change (0 =? 0)%Z with true in Halloc, Htrace. cbv iota in Halloc, Htrace.
  destruct Halloc as (batch & Hbatch & _).
  exists x, batch, seq_len. do 3 (split; [done|]).
  destruct (init_all_step cs (boot cfgs e)) as [Hcount Hnone]. fold w in Hcount, Hnone.
  assert (allocate_calls (trace w) = []) as Hnil.
  { apply nil_length_inv. by rewrite <- allocations_length, Hnone. }
  rewrite Htrace, !allocate_calls_app, Hnil, Hbatch. simpl.
  destruct (pre_layer_norm c); simpl; unfold allocate_args;
    rewrite Hcount; simpl; by rewrite Z.add_0_l.
Qed.

(** X12: the external calls of a forward call that returned, in order: the
    allocator (at most once, first), attention, the MLP, a layer norm (at
    most once, last).  The MLP is handed the output and the normalised
    input that attention returned, the very tensor attention was handed as
    input (after the cast to half precision, if any) and the attention
    module's [attn_ob]; the layer norm, when called, is handed the MLP's
    result. *)
Theorem external_calls_in_order self input a w w' out :
  forward self input a w = (w', Ok out) →
  ∃ pre post args ao key value ctx inp_norm mo e2 e3 e4,
    let c := configs w (self_config self) in
    let ob := attn_ob K (attention self) e3 in
    trace w' =
      trace w ++ pre
      ++ [EvAttention (attention self) args;
          EvMLP (mlp self) ao (aa_input args) inp_norm ob]
      ++ post ∧
    length pre ≤ 1 ∧ allocations pre = length pre ∧
    run_attention K (attention self) args e2 =
      (e3, Ok (ao, key, value, ctx, inp_norm)) ∧
    aa_norm_w args = norm_w self ∧ aa_norm_b args = norm_b self ∧
    run_mlp K (mlp self) ao (aa_input args) inp_norm ob e3 = (e4, Ok mo) ∧
    (post = [] ∨
     post = [EvLayerNorm (ds_layernorm c) mo (norm_w self) (norm_b self) (epsilon c)]).
Proof.
  intros [x seq_len e1 e2 e3 ao key value ctx inp_norm mo no c' cache args ob
            Hin Hshape Halloc Hattn Hmlp Hnorm Hout Hc Hn Hpast Hother Htrace]
    %forward_returned.
  eexists _, _, args, ao, key, value, ctx, inp_norm, mo, e1, e2, e3.
  split; [exact Htrace|].
  split; [by destruct (layer_id c' =? 0)%Z; simpl; lia|].
  split; [by destruct (layer_id c' =? 0)%Z|].
  do 4 (split; [done|]).
  destruct (pre_layer_norm c'); [by left | by right].
Qed.

(** X13: in half precision or int8 mode a single precision input is cast to
    half precision, keeping shape and device, before attention gets it; an
    input of any other type, and any input in full precision mode, is
    handed to attention as it is. *)
Theorem half_cast_only_from_float32 self input a w w' out :
  forward self input a w = (w', Ok out) →
  ∃ x args,
    let c := configs w (self_config self) in
    input = InTensor x ∧
    attention_calls (trace w') = attention_calls (trace w) ++ [args] ∧
    (fp16 c || q_int8 c = true →
     dtype x = Float32 →
     dtype (aa_input args) = Float16 ∧
     shape (aa_input args) = shape x ∧
     device (aa_input args) = device x ∧
     data (aa_input args) = cast_data K Float32 Float16 (data x)) ∧
    (dtype x ≠ Float32 → aa_input args = x) ∧
    (fp16 c || q_int8 c = false → aa_input args = x).
Proof.
  intros (x & s & e & e' & ao & key & value & ctx & inp_norm & no &
          -> & _ & Hcalls & _ & _ & _)%returned_attention.
  eexists x, _. split; [done|]. split; [exact Hcalls|].
  simpl. unfold cast_input, half, to. split; [|split].
  - intros Hmode Hty. rewrite Hmode, Hty. by simpl.
  - intros Hty. rewrite bool_decide_eq_false_2 by done. by rewrite andb_false_r.
  - by intros ->.
Qed.


(** X15: when the builder raises in a process whose kernel module is not
    loaded yet, [__init__] raises the same exception; the module stays
    unloaded, so the next construction asks the builder again, and the
    class counter has been incremented all the same. *)
Theorem load_failure_propagates a w e' err :
  inference_cuda_module w = false →
  builder_load K (ext w) = (e', Raise err) →
  ∃ w', init a w = (w', Raise err) ∧
        inference_cuda_module w' = false ∧
        class_layer_id w' = (class_layer_id w + 1)%Z ∧
        layer_id (configs w' (config a)) = class_layer_id w ∧
        trace w' = trace w ++ [EvLoad] ∧
        next_id w' = next_id w.
Proof.
  intros Hm Hload. unfold init. run_steps.
  cbn [class_layer_id inference_cuda_module configs ext
       set_class_layer_id set_config].
  rewrite Hm. cbn [negb]. run_steps.
  erewrite bind_extern_Raise by (simpl; exact Hload).
  eexists; split; [reflexivity|]; simpl.
  by rewrite fn_lookup_insert.
Qed.

End Layer.

Arguments Tensor : clear implicits.
Arguments KV : clear implicits.
Arguments PyInput : clear implicits.
Arguments PyVal : clear implicits.
Arguments FwdArgs : clear implicits.
Arguments AttnArgs : clear implicits.
Arguments Layer : clear implicits.
Arguments Kernels : clear implicits.
Arguments World : clear implicits.

(** * A small process to run the layer in

    Tensor storage is one integer, the external state counts kernel calls.
    Every kernel answers with a tensor that depends on its arguments and on
    the call count, so that outputs of different calls can be told apart. *)

Definition tensor (d : Dtype) (sh : list Z) (x : Z) : Tensor Z :=
  {| dtype := d; shape := sh; device := CPU; data := x |}.

Definition toy : Kernels Z nat :=
  {| builder_load := λ e, (e, Ok tt);
     cuda_current_device := λ _, Ok 0%Z;
     empty_data := λ _ _ _ _, 0%Z;
     cast_data := λ _ _ x, x;
     dist_is_initialized := λ _, false;
     dist_get_rank := λ _, 0%Z;
     run_allocate_workspace := λ _ _ e, (S e, Ok tt);
     run_layer_norm := λ k x _ _ _ e,
       (S e,
        Ok (tensor (match k with
                    | layer_norm_fp16 => Float16
                    | layer_norm_fp32 => Float32
                    end) (shape x) (data x + 1)));
     run_attention := λ _ a e,
       let x := aa_input a in
       (S e,
        Ok (tensor (dtype x) (shape x) (data x + 10),
            tensor (dtype x) (shape x) (100 + Z.of_nat e),
            tensor (dtype x) (shape x) (200 + Z.of_nat e),
            tensor (dtype x) (shape x) 0,
            tensor (dtype x) (shape x) (data x + 20)));
     attn_ob := λ _ _, tensor Float16 [4%Z] 0;
     run_mlp := λ _ ao x _ _ e, (S e, Ok (tensor (dtype x) (shape x) (data ao + 2))) |}.

(** A half precision, post layer norm configuration that asks for tuples;
    [layer_id] holds the default of a configuration not yet handed to a
    layer. *)
Definition fresh_config : Config :=
  {| layer_id := -1;
     hidden_size := 4;
     heads := 2;
     mp_size := 1;
     fp16 := true;
     q_int8 := false;
     pre_layer_norm := false;
     epsilon := 0.0009765625%float;
     max_out_tokens := 1024;
     bigscience_bloom := false;
     return_tuple := true |}.

Definition init_args (r : loc) : InitArgs :=
  {| config := r; mp_group := None; quantize_scales := None;
     quantize_groups := 1; merge_count := 1;
     mlp_extra_grouping := false; qkv_merging := false |}.

(** The process at start: every configuration object is fresh. *)
Definition start : World Z nat := boot (λ _, fresh_config) 0%nat.

(** The first layer, as [__init__] builds it on configuration object 0. *)
Definition layer0 : Layer Z :=
  {| self_id := 0%nat;
     self_config := 0%nat;
     attention :=
       {| at_config := 0%nat; at_mp_group := None; at_quantize_scales := None;
          at_quantize_groups := 1; at_merge_count := 1; at_qkv_merging := false |};
     mlp :=
       {| ml_config := 0%nat; ml_mp_group := None; ml_quantize_scales := None;
          ml_quantize_groups := 1; ml_merge_count := 1;
          ml_mlp_extra_grouping := false |};
     norm_w := tensor Float16 [4%Z] 0;
     norm_b := tensor Float16 [4%Z] 0;
     allocate_workspace := allocate_workspace_fp16 |}.

(** The store once [layer0] is built. *)
Definition loaded : World Z nat := (init toy (init_args 0) start).1.

(** A second layer, built on configuration object 1, and the store once
    both layers are built. *)
Definition layer1 : Layer Z :=
  {| self_id := 1%nat;
     self_config := 1%nat;
     attention :=
       {| at_config := 1%nat; at_mp_group := None; at_quantize_scales := None;
          at_quantize_groups := 1; at_merge_count := 1; at_qkv_merging := false |};
     mlp :=
       {| ml_config := 1%nat; ml_mp_group := None; ml_quantize_scales := None;
          ml_quantize_groups := 1; ml_merge_count := 1;
          ml_mlp_extra_grouping := false |};
     norm_w := tensor Float16 [4%Z] 0;
     norm_b := tensor Float16 [4%Z] 0;
     allocate_workspace := allocate_workspace_fp16 |}.

Definition two_layers : World Z nat :=
  (init_all toy [init_args 0; init_args 1] start).1.

(** A prompt of three tokens and a single decode step, batch 1, in single
    precision. *)
Definition prompt : Tensor Z := tensor Float32 [1; 3; 4]%Z 7.
Definition token : Tensor Z := tensor Float32 [1; 1; 4]%Z 8.

(** The two calls of a generation: the prompt, then one decode step. *)
Definition after_prompt : World Z nat :=
  (forward toy layer0 (InTensor prompt) no_args loaded).1.

Definition after_token : World Z nat :=
  (forward toy layer0 (InTensor token) no_args after_prompt).1.

Definition prompt_out : PyVal Z :=
  VTuple [VTensor (tensor Float32 [1; 3; 4]%Z 20); VNone].

Definition token_out : PyVal Z :=
  VTuple [VTensor (tensor Float32 [1; 1; 4]%Z 21); VNone].

(** The pair attention returned in the prompt call. *)
Definition prompt_key : Tensor Z := tensor Float16 [1; 3; 4]%Z 101.
Definition prompt_value : Tensor Z := tensor Float16 [1; 3; 4]%Z 201.

(** A decode step that passes a cache under the alias [past_key_value]. *)
Definition alias_args : FwdArgs Z :=
  with_legacy None None (Some (prompt_key, prompt_value)) no_args.

Definition after_alias : World Z nat :=
  (forward toy layer0 (InTensor token) alias_args loaded).1.

(** A call that asks for the cache back. *)
Definition cache_args : FwdArgs Z :=
  {| input_mask := None; attention_mask := None; head_mask := None;
     layer_past := None; get_key_value := false; get_present := false;
     encoder_output := None; enc_dec_attn_mask := None;
     encoder_hidden_states := None; encoder_attention_mask := None;
     use_cache := true; alibi := None; output_attentions := false;
     layer_head_mask := None; past_key_value := None |}.

Definition after_cache : World Z nat :=
  (forward toy layer0 (InTensor prompt) cache_args loaded).1.

Definition cache_out : PyVal Z :=
  VTuple [VTensor (tensor Float32 [1; 3; 4]%Z 20);
          VTuple [VTensor prompt_key; VTensor prompt_value]].

(** A call that gives every mask and the cache twice, new style and
    legacy. *)
Definition mask_new : Tensor Z := tensor Float32 [1; 3]%Z 31.
Definition mask_old : Tensor Z := tensor Float32 [1; 3]%Z 32.
Definition head_new : Tensor Z := tensor Float32 [2]%Z 41.
Definition head_old : Tensor Z := tensor Float32 [2]%Z 42.
Definition past_new : KV Z := (tensor Float16 [1; 2; 4]%Z 51, tensor Float16 [1; 2; 4]%Z 52).
Definition past_old : KV Z := (tensor Float16 [1; 2; 4]%Z 61, tensor Float16 [1; 2; 4]%Z 62).

Definition both_args : FwdArgs Z :=
  {| input_mask := Some mask_old; attention_mask := Some mask_new;
     head_mask := Some head_old; layer_past := Some past_new;
     get_key_value := false; get_present := false;
     encoder_output := None; enc_dec_attn_mask := None;
     encoder_hidden_states := None; encoder_attention_mask := None;
     use_cache := false; alibi := None; output_attentions := false;
     layer_head_mask := Some head_new; past_key_value := Some past_old |}.

Definition after_both : World Z nat :=
  (forward toy layer0 (InTensor prompt) both_args loaded).1.

(** ** The process behaves as the definitions above say *)

Example init_builds_layer0 :
  init toy (init_args 0) start = (loaded, Ok layer0).
Proof. vm_compute. reflexivity. Qed.

Example prompt_call :
  forward toy layer0 (InTensor prompt) no_args loaded = (after_prompt, Ok prompt_out).
Proof. vm_compute. reflexivity. Qed.

Example token_call :
  forward toy layer0 (InTensor token) no_args after_prompt = (after_token, Ok token_out).
Proof. vm_compute. reflexivity. Qed.

(** C1, counterexample: one layer is built and called twice; the allocator
    has then been called twice, once by each forward call. *)
Lemma allocate_workspace_called_twice :
  init toy (init_args 0) start = (loaded, Ok layer0) ∧
  allocations (trace loaded) = 0%nat ∧
  allocations
    (trace (forward_all toy
              [(layer0, InTensor prompt, no_args);
               (layer0, InTensor token, no_args)] loaded)) = 2%nat.
Proof. vm_compute. repeat split; reflexivity. Qed.

(** C2, counterexample: the decode step that follows the prompt call is
    handed the pair the prompt call produced, not an empty cache. *)
Lemma decode_step_cache_not_empty :
  forward toy layer0 (InTensor prompt) no_args loaded = (after_prompt, Ok prompt_out) ∧
  forward toy layer0 (InTensor token) no_args after_prompt = (after_token, Ok token_out) ∧
  aa_layer_past <$> attention_calls (trace after_token) =
    [None; Some (prompt_key, prompt_value)].
Proof. vm_compute. repeat split; reflexivity. Qed.

(** One generation step over both layers, then the decode step on the
    first layer. *)
Definition prompt_pass : World Z nat :=
  (forward toy layer0 (InTensor prompt) no_args two_layers).1.

Definition decode_pass : World Z nat :=
  (forward toy layer0 (InTensor token) no_args
     (forward_all toy [(layer1, InTensor prompt, no_args)] prompt_pass)).1.

(** C1, witness: two layers on two configuration objects; the first
    allocates, the second does not, and a prompt pass and a decode pass over
    both layers make two allocator calls. *)
Lemma allocate_workspace_per_first_layer_forward_witness :
  allocations
    (trace (forward_all toy
              [(layer0, InTensor prompt, no_args); (layer1, InTensor prompt, no_args);
               (layer0, InTensor token, no_args); (layer1, InTensor token, no_args)]
              two_layers)) =
    (allocations (trace two_layers) +
     allocating_calls two_layers
       [(layer0, InTensor prompt, no_args); (layer1, InTensor prompt, no_args);
        (layer0, InTensor token, no_args); (layer1, InTensor token, no_args)])%nat ∧
  allocations (trace two_layers) = 0%nat ∧
  allocates two_layers layer0 (InTensor prompt) = true ∧
  allocates two_layers layer1 (InTensor prompt) = false.
Proof.
  destruct (allocate_workspace_per_first_layer_forward toy) as [Hcount Hfirst].
  split; [apply Hcount|].
  destruct (Hfirst (λ _, fresh_config) 0%nat [init_args 0; init_args 1])
    as [Hnone Hwho].
  { apply (bool_decide_unpack _). vm_compute. exact I. }
  split; [exact Hnone|]. split.
  - apply (Hwho 0%nat layer0 (InTensor prompt)). vm_compute. reflexivity.
  - apply (Hwho 1%nat layer1 (InTensor prompt)). vm_compute. reflexivity.
Defined.

(** C2, witness: the prompt call on the first layer, the prompt call on the
    second layer, then the decode step on the first layer. *)
Lemma decode_step_gets_prompt_cache_witness :
  ∃ args1 args2 e e' ao key value ctx inp_norm,
    attention_calls (trace prompt_pass) =
      attention_calls (trace two_layers) ++ [args1] ∧
    aa_layer_past args1 = None ∧
    run_attention toy (attention layer0) args1 e =
      (e', Ok (ao, key, value, ctx, inp_norm)) ∧
    attention_calls (trace decode_pass) =
      attention_calls
        (trace (forward_all toy [(layer1, InTensor prompt, no_args)] prompt_pass))
      ++ [args2] ∧
    aa_layer_past args2 = Some (key, value).
Proof.
  apply (decode_step_gets_prompt_cache toy layer0 prompt 3 no_args
           [(layer1, InTensor prompt, no_args)] token no_args
           two_layers prompt_pass decode_pass prompt_out token_out).
  - reflexivity.
  - reflexivity.
  - reflexivity.
  - vm_compute. reflexivity.
  - apply (bool_decide_unpack _). vm_compute. exact I.
  - reflexivity.
  - reflexivity.
  - vm_compute. reflexivity.
Defined.

(** C3, counterexample: a decode step that passes a cache as
    [past_key_value] still leaves the new pair stored in the layer. *)
Lemma cache_kept_despite_past_key_value :
  past_key_value alias_args = Some (prompt_key, prompt_value) ∧
  forward toy layer0 (InTensor token) alias_args loaded =
    (after_alias, Ok token_out) ∧
  layer_pasts after_alias (self_id layer0) =
    Some (tensor Float16 [1; 1; 4]%Z 101, tensor Float16 [1; 1; 4]%Z 201).
Proof. vm_compute. repeat split; reflexivity. Qed.

(** C3, witness: the prompt call of the process. *)
Lemma cache_kept_when_attention_got_none_witness :
  ∃ x seq_len args e e' ao key value ctx inp_norm,
    InTensor prompt = InTensor x ∧
    shape x !! 1%nat = Some seq_len ∧
    attention_calls (trace after_prompt) = attention_calls (trace loaded) ++ [args] ∧
    run_attention toy (attention layer0) args e =
      (e', Ok (ao, key, value, ctx, inp_norm)) ∧
    (layer_past (Data:=Z) no_args = None →
     stored_cache loaded layer0 seq_len = None →
     aa_layer_past args = None ∧
     layer_pasts after_prompt (self_id layer0) = Some (key, value)) ∧
    (∀ p, layer_past no_args = Some p →
     aa_layer_past args = Some p ∧ layer_pasts after_prompt (self_id layer0) = None).
Proof.
  apply (cache_kept_when_attention_got_none toy layer0 (InTensor prompt) no_args
           loaded after_prompt prompt_out).
  vm_compute. reflexivity.
Defined.

(** X1, witness: the decode step of the process found the prompt's pair
    stored and left the layer holding none. *)
Lemma cache_dropped_when_attention_got_stored_witness :
  ∃ x seq_len args,
    InTensor token = InTensor x ∧
    shape x !! 1%nat = Some seq_len ∧
    attention_calls (trace after_token) =
      attention_calls (trace after_prompt) ++ [args] ∧
    aa_layer_past args = stored_cache after_prompt layer0 seq_len ∧
    (is_Some (stored_cache after_prompt layer0 seq_len) →
     layer_pasts after_token (self_id layer0) = None).
Proof.
  apply (cache_dropped_when_attention_got_stored toy layer0 (InTensor token)
           no_args after_prompt after_token token_out).
  - vm_compute. reflexivity.
  - reflexivity.
Defined.

(** C5, witness: the configuration is half precision and the prompt single
    precision, so the call casts the input down and the output back. *)
Lemma output_dtype_is_input_dtype_witness :
  fp16 (configs loaded (self_config layer0)) = true ∧
  dtype prompt = Float32 ∧
  ∃ x o,
    InTensor prompt = InTensor x ∧
    output_tensor prompt_out = Some o ∧ dtype o = dtype x.
Proof.
  split; [reflexivity|]. split; [reflexivity|].
  apply (output_dtype_is_input_dtype toy layer0 (InTensor prompt) no_args
           loaded after_prompt prompt_out).
  vm_compute. reflexivity.
Defined.

(** C6, counterexample: no cache is asked for and [return_tuple] is set;
    the call returns a tuple of two elements, the output and [None]. *)
Lemma return_tuple_has_two_elements :
  (get_present (Data:=Z) no_args || get_key_value (Data:=Z) no_args
   || use_cache (Data:=Z) no_args) = false ∧
  return_tuple (configs loaded (self_config layer0)) = true ∧
  forward toy layer0 (InTensor prompt) no_args loaded =
    (after_prompt, Ok (VTuple [VTensor (tensor Float32 [1; 3; 4]%Z 20); VNone])).
Proof. vm_compute. repeat split; reflexivity. Qed.

(** C6, witness: a call with [use_cache] set. *)
Lemma return_value_packaging_witness :
  ∃ args e e' ao key value ctx inp_norm o,
    attention_calls (trace after_cache) = attention_calls (trace loaded) ++ [args] ∧
    run_attention toy (attention layer0) args e =
      (e', Ok (ao, key, value, ctx, inp_norm)) ∧
    output_tensor cache_out = Some o ∧
    cache_out =
      if get_present cache_args || get_key_value cache_args || use_cache cache_args
      then VTuple [VTensor o; VTuple [VTensor key; VTensor value]]
      else if return_tuple (configs loaded (self_config layer0))
           then VTuple [VTensor o; VNone]
           else VTensor o.
Proof.
  apply (return_value_packaging toy layer0 (InTensor prompt) cache_args
           loaded after_cache cache_out).
  vm_compute. reflexivity.
Defined.

(** C7, witness: the prompt call of the process, whose configuration has
    post layer norm. *)
Lemma post_layer_norm_output_witness :
  pre_layer_norm (configs loaded (self_config layer0)) = false ∧
  ∃ x o ao inp_norm ob e3 e4 mo,
    let c := configs loaded (self_config layer0) in
    InTensor prompt = InTensor x ∧
    output_tensor prompt_out = Some o ∧
    run_mlp toy (mlp layer0) ao (cast_input toy c x) inp_norm ob e3 = (e4, Ok mo) ∧
    (pre_layer_norm c = false →
     ∃ no e5,
       run_layer_norm toy (ds_layernorm c) mo (norm_w layer0) (norm_b layer0)
         (epsilon c) e4 = (e5, Ok no) ∧
       o = to toy no (dtype x) ∧
       layer_norm_calls (trace after_prompt) = S (layer_norm_calls (trace loaded))) ∧
    (pre_layer_norm c = true →
     o = to toy mo (dtype x) ∧
     layer_norm_calls (trace after_prompt) = layer_norm_calls (trace loaded)).
Proof.
  split; [reflexivity|].
  apply (post_layer_norm_output toy layer0 (InTensor prompt) no_args
           loaded after_prompt prompt_out).
  vm_compute. reflexivity.
Defined.

(** C8, counterexample: configuration object 0 carries [layer_id] -1 before
    the first layer is built on it and 0 afterwards. *)
Lemma init_writes_layer_id :
  init toy (init_args 0) start = (loaded, Ok layer0) ∧
  layer_id (configs start 0%nat) = (-1)%Z ∧
  layer_id (configs loaded 0%nat) = 0%Z.
Proof. vm_compute. repeat split; reflexivity. Qed.

(** C9, witness: a call that gives both masks and the cache in both
    styles returns as it does without the legacy ones, and attention gets
    the new-style values. *)
Lemma explicit_arguments_win_witness :
  forward toy layer0 (InTensor prompt) (with_legacy None None None both_args) loaded =
    forward toy layer0 (InTensor prompt) both_args loaded ∧
  ∃ args,
    attention_calls (trace after_both) = attention_calls (trace loaded) ++ [args] ∧
    (∀ m, attention_mask both_args = Some m → aa_input_mask args = Some m) ∧
    (∀ m, layer_head_mask both_args = Some m → aa_head_mask args = Some m) ∧
    (∀ p, layer_past both_args = Some p → aa_layer_past args = Some p).
Proof.
  destruct (explicit_arguments_win toy layer0 (InTensor prompt) both_args loaded)
    as [Hsame Hwin].
  split.
  - apply Hsame; intros H; discriminate H.
  - apply (Hwin after_both (VTuple [VTensor (tensor Float32 [1; 3; 4]%Z 20); VNone])).
    vm_compute. reflexivity.
Defined.

(** X2, witness: the kernels of the process never raise, so the prompt call
    returns. *)
Lemma forward_returns_witness :
  ∃ w' out, forward toy layer0 (InTensor prompt) no_args loaded = (w', Ok out).
Proof.
  apply forward_returns.
  - intros k args e. eexists _, _. reflexivity.
  - intros m args e. eexists _, _. reflexivity.
  - intros m ao i n ob e. eexists _, _. reflexivity.
  - intros k o nw nb eps e. eexists _, _. reflexivity.
  - simpl. lia.
  - reflexivity.
Defined.

(** * The process with collaborators that raise *)

(** The kernels of the process, each of the four calls raising when its
    flag is off. *)
Definition toy_when (load_ok alloc_ok attn_ok mlp_ok : bool) : Kernels Z nat :=
  {| builder_load := λ e,
       if load_ok then builder_load toy e else (e, Raise (ExternalError 1));
     cuda_current_device := cuda_current_device toy;
     empty_data := empty_data toy;
     cast_data := cast_data toy;
     dist_is_initialized := dist_is_initialized toy;
     dist_get_rank := dist_get_rank toy;
     run_allocate_workspace := λ k a e,
       if alloc_ok then run_allocate_workspace toy k a e
       else (S e, Raise (ExternalError 2));
     run_layer_norm := run_layer_norm toy;
     run_attention := λ m a e,
       if attn_ok then run_attention toy m a e else (S e, Raise (ExternalError 3));
     attn_ob := attn_ob toy;
     run_mlp := λ m ao x n ob e,
       if mlp_ok then run_mlp toy m ao x n ob e else (S e, Raise (ExternalError 4)) |}.

(** Both layers have run the prompt. *)
Definition both_prompted : World Z nat :=
  forward_all toy
    [(layer0, InTensor prompt, no_args); (layer1, InTensor prompt, no_args)]
    two_layers.

(** A tensor of one dimension. *)
Definition vector : Tensor Z := tensor Float32 [5]%Z 1.

(** A second layer built on the configuration object of the first. *)
Definition layer0_again : Layer Z :=
  {| self_id := 1%nat;
     self_config := 0%nat;
     attention := attention layer0;
     mlp := mlp layer0;
     norm_w := tensor Float16 [4%Z] 0;
     norm_b := tensor Float16 [4%Z] 0;
     allocate_workspace := allocate_workspace_fp16 |}.


(** X3, witness: the decode step on the first layer leaves the cache that
    the second layer stored in its prompt call. *)
Lemma forward_touches_own_cache_only_witness :
  is_Some (layer_pasts both_prompted (self_id layer1)) ∧
  class_layer_id (forward toy layer0 (InTensor token) no_args both_prompted).1 =
    class_layer_id both_prompted ∧
  inference_cuda_module (forward toy layer0 (InTensor token) no_args both_prompted).1 =
    inference_cuda_module both_prompted ∧
  configs (forward toy layer0 (InTensor token) no_args both_prompted).1 =
    configs both_prompted ∧
  layer_pasts (forward toy layer0 (InTensor token) no_args both_prompted).1
    (self_id layer1) =
    layer_pasts both_prompted (self_id layer1).
Proof.
  split; [vm_compute; eauto|].
  destruct (forward_touches_own_cache_only toy layer0 (InTensor token) no_args
              both_prompted) as (Hn & Hm & Hc & Hl).
  do 3 (split; [assumption|]). apply Hl. simpl. lia.
Defined.

(** X4, witness: a tensor of one dimension. *)
Lemma short_tensor_raises_witness :
  forward toy layer0 (InTensor vector) no_args loaded = (loaded, Raise IndexError).
Proof. apply short_tensor_raises. simpl. lia. Defined.

(** X5, witness: attention raises in the prompt call of the first layer. *)
Lemma attention_failure_propagates_witness :
  ∃ w', forward (toy_when true true false true) layer0 (InTensor prompt) no_args
          loaded = (w', Raise (ExternalError 3)) ∧
        layer_pasts w' (self_id layer0) = stored_cache loaded layer0 3 ∧
        mlp_calls (trace w') = mlp_calls (trace loaded) ∧
        ext w' = 2%nat.
Proof.
  apply (attention_failure_propagates (toy_when true true false true) layer0
           prompt no_args loaded 1%Z 3%Z 1%nat 2%nat (ExternalError 3)).
  - reflexivity.
  - reflexivity.
  - vm_compute. reflexivity.
  - vm_compute. reflexivity.
Defined.

(** X6, witness: the MLP raises in the prompt call of the first layer. *)
Lemma mlp_failure_after_cache_update_witness :
  ∃ w', forward (toy_when true true true false) layer0 (InTensor prompt) no_args
          loaded = (w', Raise (ExternalError 4)) ∧
        layer_pasts w' (self_id layer0) =
          match resolved_cache no_args (stored_cache loaded layer0 3) with
          | None => Some (prompt_key, prompt_value)
          | Some _ => None
          end ∧
        layer_norm_calls (trace w') = layer_norm_calls (trace loaded) ∧
        ext w' = 3%nat.
Proof.
  apply (mlp_failure_after_cache_update (toy_when true true true false) layer0
           prompt no_args loaded 1%Z 3%Z 1%nat 2%nat 3%nat
           (tensor Float16 [1; 3; 4]%Z 17) prompt_key prompt_value
           (tensor Float16 [1; 3; 4]%Z 0) (tensor Float16 [1; 3; 4]%Z 27)
           (ExternalError 4)).
  - reflexivity.
  - reflexivity.
  - vm_compute. reflexivity.
  - vm_compute. reflexivity.
  - vm_compute. reflexivity.
Defined.

(** X7, witness: the allocator raises in the prompt call of the first
    layer. *)
Lemma allocator_failure_propagates_witness :
  ∃ w', forward (toy_when true false true true) layer0 (InTensor prompt) no_args
          loaded = (w', Raise (ExternalError 2)) ∧
        layer_pasts w' = layer_pasts loaded ∧
        allocations (trace w') = S (allocations (trace loaded)) ∧
        attention_calls (trace w') = attention_calls (trace loaded) ∧
        ext w' = 1%nat.
Proof.
  apply (allocator_failure_propagates (toy_when true false true true) layer0
           prompt no_args loaded 1%Z 3%Z 1%nat (ExternalError 2)).
  - reflexivity.
  - reflexivity.
  - reflexivity.
  - vm_compute. reflexivity.
Defined.

(** X8, witness: the first construction of the process. *)
Lemma init_result_witness :
  let c := configs start (config (init_args 0)) in
  let data_type := if fp16 c then Float16 else Float32 in
  self_config layer0 = config (init_args 0) ∧
  at_config (attention layer0) = config (init_args 0) ∧
  ml_config (mlp layer0) = config (init_args 0) ∧
  (0 ≤ hidden_size c)%Z ∧
  dtype (norm_w layer0) = data_type ∧ shape (norm_w layer0) = [hidden_size c] ∧
  dtype (norm_b layer0) = data_type ∧ shape (norm_b layer0) = [hidden_size c] ∧
  device (norm_b layer0) = device (norm_w layer0) ∧
  (bigscience_bloom c = false → device (norm_w layer0) = CPU) ∧
  allocate_workspace layer0 =
    (if fp16 c then allocate_workspace_fp16 else allocate_workspace_fp32) ∧
  layer_pasts loaded (self_id layer0) = None ∧
  inference_cuda_module loaded = true.
Proof.
  apply (init_result toy (init_args 0) start loaded layer0).
  vm_compute. reflexivity.
Defined.

(** X9, witness: two constructions in the process. *)
Lemma kernel_module_loaded_once_witness :
  trace (init_all toy [init_args 0; init_args 1] start).1 =
    [EvLoad; EvLogDist (set_layer_id fresh_config 0)] ∧
  loads (trace (init_all toy [init_args 0; init_args 1] start).1) = 1%nat ∧
  inference_cuda_module (init_all toy [init_args 0; init_args 1] start).1 = true.
Proof.
  apply (kernel_module_loaded_once toy (λ _, fresh_config) 0%nat
           (init_args 0) [init_args 1]).
  intros e. exists e. reflexivity.
Defined.

(** X10, witness: two layers built on configuration object 0, each called
    with the prompt. *)
Lemma shared_config_never_allocates_witness :
  layer_id (configs (init_all toy [init_args 0; init_args 0] start).1 0%nat) =
    (Z.of_nat (length [init_args 0%nat; init_args 0%nat]) - 1)%Z ∧
  allocations
    (trace (forward_all toy
              [(layer0, InTensor prompt, no_args);
               (layer0_again, InTensor prompt, no_args)]
              (init_all toy [init_args 0; init_args 0] start).1)) = 0%nat.
Proof.
  apply (shared_config_never_allocates toy (λ _, fresh_config) 0%nat
           [init_args 0; init_args 0] 0%nat).
  - repeat constructor.
  - simpl. lia.
  - repeat apply Forall_cons_2; [| |apply Forall_nil_2].
    + apply (list_elem_of_lookup_2 _ 0%nat). vm_compute. reflexivity.
    + apply (list_elem_of_lookup_2 _ 1%nat). vm_compute. reflexivity.
Defined.

(** X11, witness: the prompt call on the first of two layers. *)
Lemma allocator_told_layers_constructed_witness :
  ∃ x batch seq_len,
    InTensor prompt = InTensor x ∧
    shape x !! 0%nat = Some batch ∧
    shape x !! 1%nat = Some seq_len ∧
    allocate_calls (trace prompt_pass) =
      [(allocate_workspace layer0,
        {| aw_hidden_size := hidden_size (configs two_layers (self_config layer0));
           aw_batch := batch;
           aw_seq_len := seq_len;
           aw_num_layers := Z.of_nat (length [init_args 0%nat; init_args 1%nat]);
           aw_heads := heads (configs two_layers (self_config layer0));
           aw_mp_size := mp_size (configs two_layers (self_config layer0));
           aw_bigscience_bloom :=
             bigscience_bloom (configs two_layers (self_config layer0));
           aw_rank :=
             if dist_is_initialized toy (ext two_layers)
             then dist_get_rank toy (ext two_layers) else 0%Z;
           aw_max_out_tokens :=
             max_out_tokens (configs two_layers (self_config layer0)) |})].
Proof.
  apply (allocator_told_layers_constructed toy (λ _, fresh_config) 0%nat
           [init_args 0; init_args 1] layer0 (InTensor prompt) no_args
           prompt_pass prompt_out).
  - vm_compute. reflexivity.
  - reflexivity.
Defined.

(** X12, witness: the prompt call of the process. *)
Lemma external_calls_in_order_witness :
  ∃ pre post args ao key value ctx inp_norm mo e2 e3 e4,
    let c := configs loaded (self_config layer0) in
    let ob := attn_ob toy (attention layer0) e3 in
    trace after_prompt =
      trace loaded ++ pre
      ++ [EvAttention (attention layer0) args;
          EvMLP (mlp layer0) ao (aa_input args) inp_norm ob]
      ++ post ∧
    length pre ≤ 1 ∧ allocations pre = length pre ∧
    run_attention toy (attention layer0) args e2 =
      (e3, Ok (ao, key, value, ctx, inp_norm)) ∧
    aa_norm_w args = norm_w layer0 ∧ aa_norm_b args = norm_b layer0 ∧
    run_mlp toy (mlp layer0) ao (aa_input args) inp_norm ob e3 = (e4, Ok mo) ∧
    (post = [] ∨
     post = [EvLayerNorm (ds_layernorm c) mo (norm_w layer0) (norm_b layer0)
               (epsilon c)]).
Proof.
  apply (external_calls_in_order toy layer0 (InTensor prompt) no_args
           loaded after_prompt prompt_out).
  vm_compute. reflexivity.
Defined.

(** X13, witness: the prompt call of the process casts its single
    precision input. *)
Lemma half_cast_only_from_float32_witness :
  ∃ x args,
    let c := configs loaded (self_config layer0) in
    InTensor prompt = InTensor x ∧
    attention_calls (trace after_prompt) = attention_calls (trace loaded) ++ [args] ∧
    (fp16 c || q_int8 c = true →
     dtype x = Float32 →
     dtype (aa_input args) = Float16 ∧
     shape (aa_input args) = shape x ∧
     device (aa_input args) = device x ∧
     data (aa_input args) = cast_data toy Float32 Float16 (data x)) ∧
    (dtype x ≠ Float32 → aa_input args = x) ∧
    (fp16 c || q_int8 c = false → aa_input args = x).
Proof.
  apply (half_cast_only_from_float32 toy layer0 (InTensor prompt) no_args
           loaded after_prompt prompt_out).
  vm_compute. reflexivity.
Defined.


(** X15, witness: the builder raises in the first construction. *)
Lemma load_failure_propagates_witness :
  ∃ w', init (toy_when false true true true) (init_args 0) start =
          (w', Raise (ExternalError 1)) ∧
        inference_cuda_module w' = false ∧
        class_layer_id w' = (class_layer_id start + 1)%Z ∧
        layer_id (configs w' (config (init_args 0))) = class_layer_id start ∧
        trace w' = trace start ++ [EvLoad] ∧
        next_id w' = next_id start.
Proof.
  apply (load_failure_propagates (toy_when false true true true) (init_args 0)
           start 0%nat (ExternalError 1)).
  - reflexivity.
  - reflexivity.
Defined.
